(** * swmmtoolbox: a shallow embedding of the SWMM 5 output-file reader

    The development follows [swmmtoolbox/swmmtoolbox.py]: the class
    [SwmmExtract] (header parsing, name and type checks, the single-value
    fetch [get_swmm_results]) and the commands built on it ([catalog],
    [listvariables], [extract], [fast_extract]).

    Conventions of the embedding.
    - A file is the list of its bytes; the open file object [self.fp] is the
      byte list, the current position and a trace of the accesses made.
    - Python integers are [Z].  The 32-bit fields of the file are decoded
      from four little-endian bytes as two's-complement numbers (struct
      code ['i'] on the little-endian machines the package runs on).
    - Python floats are IEEE binary64 numbers, [spec_float] with the
      operations of [SpecFloat] at precision 53 and [emax] 1024.
    - Exceptions are values of [exn]; a computation returns [Ok] or
      [Raise] together with the state reached, so that what was mutated
      before a [raise] stays mutated.
    - Python [str] values are strings holding their UTF-8 encoding. *)

From Stdlib Require Import ZArith Lia Strings.Byte Floats.SpecFloat.
From stdpp Require Import prelude gmap strings pretty.

Local Open Scope Z_scope.

(** ** Exceptions *)

(** The [raise ValueError] statements of the module, and the library calls
    that raise a [ValueError], told apart by the place that raises. *)
Inductive value_error :=
  | First_magic_number_incorrect        (* __init__, magic1 *)
  | Second_magic_number_incorrect       (* __init__, magic2 *)
  | Error_code_in_output_file           (* __init__, errcode *)
  | Zero_time_periods                   (* __init__, swmm_nperiods *)
  | Type_argument_incorrect             (* type_check *)
  | Name_not_found                      (* name_check *)
  | Type_must_be_one_of_0_1_2_4         (* get_swmm_results *)
  | Float_NaN_to_integer                (* int(nan) *)
  | Cannot_fit_offset                   (* fp.seek(offset), offset not an off_t *)
  | Read_length_negative                (* fp.read(n), n < -1 *)
  | Length_mismatch                     (* df.columns = ..., wrong number of labels *)
  | Negative_dimensions                 (* numpy.zeros(n), n < 0 *)
  | Cannot_reshape                      (* ndarray.reshape(-1, 4) *)
  | Need_at_least_one_array             (* numpy.vstack([]) *)
  | Shape_of_passed_values              (* pandas.DataFrame(data, columns=...) *)
  | Mmap_length_greater_than_file_size. (* mmap.mmap *)

Inductive exn :=
  | ValueError (v : value_error)
  | struct_error        (* struct.unpack: wrong buffer size or bad format *)
  | OSError             (* seek to a negative position *)
  | KeyError            (* dict[key], key absent *)
  | IndexError          (* index out of bounds *)
  | OverflowError       (* int(inf); date out of range; fp.read(n), n not a
                           Py_ssize_t *)
  | AttributeError      (* .str accessor on a Series without strings *)
  | AssertionError
  | UnboundLocalError.  (* a local variable read before it is assigned *)

Inductive result (A : Type) :=
  | Ok (a : A)
  | Raise (e : exn).
Arguments Ok {A} a.
Arguments Raise {A} e.

(** The errors that [SwmmExtract.__init__] raises itself when it rejects a
    file: the format errors. *)
Definition is_format_error (e : exn) : bool :=
  match e with
  | ValueError First_magic_number_incorrect
  | ValueError Second_magic_number_incorrect
  | ValueError Error_code_in_output_file
  | ValueError Zero_time_periods => true
  | _ => false
  end.

(** ** Computations with state and exceptions *)

Definition M (S A : Type) : Type := S -> result A * S.

Definition ret {S A} (a : A) : M S A := fun s => (Ok a, s).

Definition throw {S A} (e : exn) : M S A := fun s => (Raise e, s).

Definition bind {S A B} (c : M S A) (k : A -> M S B) : M S B :=
  fun s =>
    match c s with
    | (Ok a, s') => k a s'
    | (Raise e, s') => (Raise e, s')
    end.

(** A pure step that may raise. *)
Definition lift {S A} (r : result A) : M S A := fun s => (r, s).

Definition gets {S A} (f : S -> A) : M S A := fun s => (Ok (f s), s).

Definition modify {S} (f : S -> S) : M S unit := fun s => (Ok tt, f s).

(** Run a computation on a component of the state. *)
Definition zoom {S T A} (get : S -> T) (set : T -> S -> S) (c : M T A) : M S A :=
  fun s => let (r, t) := c (get s) in (r, set t s).

Notation "'let*' x ':=' c 'in' k" := (bind c (fun x => k))
  (at level 10, x name, c at level 100, k at level 200).
Notation "'let*' ' ( x , y ) ':=' c 'in' k" := (bind c (fun '(x, y) => k))
  (at level 10, x name, y name, c at level 100, k at level 200).
Notation "c1 ';;' c2" := (bind c1 (fun _ => c2))
  (at level 100, c2 at level 200, right associativity).

(** [[f x for x in l]], where [f] may raise or touch the state *)
Fixpoint map_M {S A B} (f : A -> M S B) (l : list A) : M S (list B) :=
  match l with
  | [] => ret []
  | x :: l' => let* y := f x in let* ys := map_M f l' in ret (y :: ys)
  end.

(** [[c for _ in range(n)]] *)
Fixpoint repeat_M {S A} (n : nat) (c : M S A) : M S (list A) :=
  match n with
  | O => ret []
  | S n' => let* y := c in let* ys := repeat_M n' c in ret (y :: ys)
  end.

(** [range(n)] and [range(a, b)] *)
Definition range (n : Z) : list Z := seqZ 0 n.
Definition range2 (a b : Z) : list Z := seqZ a (b - a).

(** [l.index(x)]: the first position of [x], [ValueError] when absent (the
    callers catch it and raise their own). *)
Fixpoint list_index `{EqDecision A} (x : A) (l : list A) : option Z :=
  match l with
  | [] => None
  | y :: l' => if decide (x = y) then Some 0 else option_map Z.succ (list_index x l')
  end.

(** ** Bytes, integers and floats of the file *)

Definition byte_to_Z (b : byte) : Z := Z.of_N (Byte.to_N b).

Definition byte_of_Z (z : Z) : byte :=
  match Byte.of_N (Z.to_N (z mod 256)) with
  | Some b => b
  | None => x00
  end.

(** Little-endian value of a byte string. *)
Fixpoint le_combine (bs : list byte) : Z :=
  match bs with
  | [] => 0
  | b :: bs' => byte_to_Z b + 256 * le_combine bs'
  end.

Fixpoint le_split (n : nat) (z : Z) : list byte :=
  match n with
  | O => []
  | S n' => byte_of_Z z :: le_split n' (z / 256)
  end.

(** Two's-complement reading of a [w]-bit pattern. *)
Definition signed (w : Z) (u : Z) : Z :=
  if u <? 2 ^ (w - 1) then u else u - 2 ^ w.

(** Python floats. *)
Abbreviation pyfloat := spec_float.
Definition float_prec : Z := 53.
Definition float_emax : Z := 1024.

Definition float_of_int (z : Z) : pyfloat :=
  binary_normalize float_prec float_emax z 0 false.
Definition float_sub (x y : pyfloat) : pyfloat := SFsub float_prec float_emax x y.
Definition float_mul (x y : pyfloat) : pyfloat := SFmul float_prec float_emax x y.

(** Decoding of an IEEE pattern with [ew] exponent bits and [mw] stored
    mantissa bits into the binary64 number of the same value (exact for
    binary32 and binary64 patterns). *)
Definition float_of_bits (ew mw : Z) (u : Z) : pyfloat :=
  let s := Z.testbit u (ew + mw) in
  let e := (u / 2 ^ mw) mod 2 ^ ew in
  let m := u mod 2 ^ mw in
  let bias := 2 ^ (ew - 1) - 1 in
  if e =? 2 ^ ew - 1 then
    if m =? 0 then S754_infinity s else S754_nan
  else if e =? 0 then
    binary_normalize float_prec float_emax (if s then - m else m) (1 - bias - mw) s
  else
    binary_normalize float_prec float_emax
      (if s then - (m + 2 ^ mw) else m + 2 ^ mw) (e - bias - mw) s.

(** [int(x)] for a float [x]: truncation towards zero. *)
Definition py_int (x : pyfloat) : result Z :=
  match x with
  | S754_nan => Raise (ValueError Float_NaN_to_integer)
  | S754_infinity _ => Raise OverflowError
  | S754_zero _ => Ok 0
  | S754_finite s m e =>
      let a := if 0 <=? e then Z.pos m * 2 ^ e else Z.pos m / 2 ^ (- e) in
      Ok (if s then - a else a)
  end.

(** [math.modf(x)] for a finite float [x]: the integral part, as the
    integer it is, and the fractional part ([x] minus its integral part,
    which is exact). *)
Definition float_modf (x : pyfloat) : Z * pyfloat :=
  let intpart := match py_int x with Ok z => z | Raise _ => 0 end in
  (intpart, float_sub x (float_of_int intpart)).

Definition float_is_zero (x : pyfloat) : bool :=
  match x with S754_zero _ => true | _ => false end.

Definition float_is_negative (x : pyfloat) : bool :=
  match x with S754_finite s _ _ => s | _ => false end.

(** The comparison of [|x|] with 1/2, for a finite float [x]. *)
Definition float_abs_compare_half (x : pyfloat) : comparison :=
  match x with
  | S754_finite _ m e =>
      if 0 <=? e + 1 then Z.pos m * 2 ^ (e + 1) ?= 1
      else Z.pos m ?= 2 ^ (- (e + 1))
  | _ => Lt
  end.

(** ** [datetime]

    [datetime.timedelta(days=days, seconds=seconds)] for an integer [days]
    and a finite float [seconds], as the number of microseconds it holds.
    The whole seconds count 1000000 each; the fraction of a second is
    multiplied by 1000000.0, the whole microseconds of the product are
    added and what is left of it is rounded to the nearest microsecond,
    a tie going to the even total. *)
Definition us_per_second : Z := 1000000.
Definition us_per_day : Z := 86400 * us_per_second.

Definition timedelta_us (days : Z) (seconds : pyfloat) : Z :=
  let '(intpart, fracpart) := float_modf seconds in
  let x := intpart * us_per_second in
  if float_is_zero fracpart then x + days * us_per_day else
  let '(intpart, leftover_us) :=
    float_modf (float_mul (float_of_int us_per_second) fracpart) in
  let x := x + intpart + days * us_per_day in
  if float_is_zero leftover_us then x else
  let whole_us := if float_is_negative leftover_us then -1 else 1 in
  match float_abs_compare_half leftover_us with
  | Lt => x
  | Eq => if Z.odd x then x + whole_us else x
  | Gt => x + whole_us
  end.

(** A calendar value with microseconds, [datetime.datetime(1899, 12, 30) +
    timedelta]: the days from 1899-12-30, the second of the day and the
    microsecond of the second. *)
Definition datetime_us : Type := Z * Z * Z.

(** [datetime.datetime(1899, 12, 30) + delta] for a timedelta of [us]
    microseconds: a timedelta of more than 999999999 days and a date
    outside the years 1 to 9999 are an [OverflowError].  1899-12-30 is day
    693594 of the proleptic calendar, 9999-12-31 is day 3652059. *)
Definition begindate_plus_us (us : Z) : result datetime_us :=
  let d := us / us_per_day in
  let s := (us mod us_per_day) / us_per_second in
  let u := us mod us_per_second in
  if (d <? -999999999) || (999999999 <? d) then Raise OverflowError
  else if (693594 + d <? 1) || (3652059 <? 693594 + d) then Raise OverflowError
  else Ok (d, s, u).

(** ** [struct.unpack] *)

Fixpoint chunks (n : nat) (k : nat) (bs : list byte) : list (list byte) :=
  match n with
  | O => []
  | S n' => take k bs :: chunks n' k (drop k bs)
  end.

Definition int_of_bytes (bs : list byte) : Z := signed 32 (le_combine bs).
Definition float_of_bytes (bs : list byte) : pyfloat := float_of_bits 8 23 (le_combine bs).
Definition double_of_bytes (bs : list byte) : pyfloat := float_of_bits 11 52 (le_combine bs).

(** [struct.unpack('{n}i', bs)] *)
Definition unpack_ni (n : Z) (bs : list byte) : result (list Z) :=
  if (0 <=? n) && (Z.of_nat (length bs) =? 4 * n)
  then Ok (int_of_bytes <$> chunks (Z.to_nat n) 4 bs)
  else Raise struct_error.

(** [struct.unpack('i', bs)[0]] *)
Definition unpack_i (bs : list byte) : result Z :=
  if Z.of_nat (length bs) =? 4 then Ok (int_of_bytes bs) else Raise struct_error.

(** [struct.unpack('{n}f', bs)] *)
Definition unpack_nf (n : Z) (bs : list byte) : result (list pyfloat) :=
  if (0 <=? n) && (Z.of_nat (length bs) =? 4 * n)
  then Ok (float_of_bytes <$> chunks (Z.to_nat n) 4 bs)
  else Raise struct_error.

(** [struct.unpack('f', bs)[0]] *)
Definition unpack_f (bs : list byte) : result pyfloat :=
  if Z.of_nat (length bs) =? 4 then Ok (float_of_bytes bs) else Raise struct_error.

(** [struct.unpack('d', bs)[0]] *)
Definition unpack_d (bs : list byte) : result pyfloat :=
  if Z.of_nat (length bs) =? 8 then Ok (double_of_bytes bs) else Raise struct_error.

(** A property value: the leading "type" property of nodes and links is an
    integer, the others are floats. *)
Inductive propval :=
  | prop_int (z : Z)
  | prop_float (x : pyfloat).

(** [struct.unpack('i{n}f', bs)] *)
Definition unpack_i_nf (n : Z) (bs : list byte) : result (list propval) :=
  if (0 <=? n) && (Z.of_nat (length bs) =? 4 * (1 + n))
  then Ok (prop_int (int_of_bytes (take 4 bs))
           :: (prop_float ∘ float_of_bytes <$> chunks (Z.to_nat n) 4 (drop 4 bs)))
  else Raise struct_error.

(** [struct.unpack('{n}s', bs)[0]] *)
Definition unpack_ns (n : Z) (bs : list byte) : result (list byte) :=
  if (0 <=? n) && (Z.of_nat (length bs) =? n) then Ok bs else Raise struct_error.

(** [str(name, 'ascii', 'replace')]: a byte outside ASCII becomes U+FFFD
    (three bytes in UTF-8). *)
Definition ascii_of_byte (b : byte) : Ascii.ascii := Ascii.ascii_of_byte b.

Fixpoint decode_ascii_replace (bs : list byte) : string :=
  match bs with
  | [] => EmptyString
  | b :: bs' =>
      if byte_to_Z b <? 128 then String (ascii_of_byte b) (decode_ascii_replace bs')
      else String (ascii_of_byte xef) (String (ascii_of_byte xbf)
             (String (ascii_of_byte xbd) (decode_ascii_replace bs')))
  end.

(** ** The file object *)

Inductive io_op :=
  | io_read (pos n : Z)              (* fp.read(n) at position pos *)
  | io_mmap (offset length : Z).     (* mmap.mmap(fp.fileno(), length, offset) *)

Record file_obj := {
  f_bytes : list byte;
  f_pos : Z;
  f_log : list io_op
}.

Definition open_rb (content : list byte) : file_obj :=
  {| f_bytes := content; f_pos := 0; f_log := [] |}.

Definition f_size (f : file_obj) : Z := Z.of_nat (length (f_bytes f)).

(** The C integers that the buffered reader converts its arguments to, on
    the 64-bit machines the package runs on: [off_t] for the offset of a
    seek, [Py_ssize_t] for the length of a read. *)
Definition fits_int64 (z : Z) : bool := (- 2 ^ 63 <=? z) && (z <? 2 ^ 63).

(** [fp.seek(offset, whence)] with [whence] 0 (from the start) or 2 (from
    the end).  An offset that is not an [off_t] is a [ValueError] ("cannot
    fit 'int' into an offset-sized integer"), raised before the file is
    touched; a negative target is the [OSError] of [lseek].  The size of a
    file is itself an [off_t], so that an offset between 0 and the size
    always fits: the test says so for byte lists of any length.  A seek
    beyond the end succeeds (no limit of the file system on offsets is
    modelled). *)
Definition fp_seek (offset whence : Z) : M file_obj unit :=
  fun f =>
    let target := if whence =? 2 then f_size f + offset else offset in
    if negb (fits_int64 offset || ((0 <=? offset) && (offset <=? f_size f)))
    then (Raise (ValueError Cannot_fit_offset), f)
    else if target <? 0 then (Raise OSError, f)
    else (Ok tt, {| f_bytes := f_bytes f; f_pos := target; f_log := f_log f |}).

(** [fp.read(n)]: the bytes from the position on, at most [n] of them, all
    of them for [n = -1]; fewer at the end of the file.  A length that is
    not a [Py_ssize_t] is an [OverflowError], a length below -1 a
    [ValueError] ("read length must be non-negative or -1"); both are
    raised before the file is touched. *)
Definition fp_read (n : Z) : M file_obj (list byte) :=
  fun f =>
    if negb (fits_int64 n) then (Raise OverflowError, f)
    else if n <? -1 then (Raise (ValueError Read_length_negative), f)
    else
      let rest := drop (Z.to_nat (f_pos f)) (f_bytes f) in
      let bs := if n =? -1 then rest else take (Z.to_nat n) rest in
      (Ok bs, {| f_bytes := f_bytes f;
                 f_pos := f_pos f + Z.of_nat (length bs);
                 f_log := f_log f ++ [io_read (f_pos f) n] |}).

(** ** Module-level tables *)

(** A dict of dicts from small integers to labels. *)
Abbreviation codetable := (gmap Z (gmap Z string)).

Definition dict_of {V} (l : list (Z * V)) : gmap Z V := list_to_map l.

Open Scope string_scope.

Definition PROPCODE : codetable := dict_of
  [ (0, dict_of [(1, "Area")]);
    (1, dict_of [(0, "Type"); (2, "Inv_elev"); (3, "Max_depth")]);
    (2, dict_of [(0, "Type"); (4, "Inv_offset"); (3, "Max_depth"); (5, "Length")]) ].

Definition TYPECODE : codetable := dict_of
  [ (0, dict_of [(1, "Area")]);
    (1, dict_of [(0, "Junction"); (1, "Outfall"); (2, "Storage"); (3, "Divider")]);
    (2, dict_of [(0, "Conduit"); (1, "Pump"); (2, "Orifice"); (3, "Weir"); (4, "Outlet")]) ].

Definition VARCODE : codetable := dict_of
  [ (0, dict_of [(0, "Rainfall"); (1, "Snow_depth"); (2, "Evaporation_loss");
                 (3, "Infiltration_loss"); (4, "Runoff_rate");
                 (5, "Groundwater_outflow"); (6, "Groundwater_elevation");
                 (7, "Soil_moisture"); (8, "Pollutant_washoff")]);
    (1, dict_of [(0, "Depth_above_invert"); (1, "Hydraulic_head");
                 (2, "Volume_stored_ponded"); (3, "Lateral_inflow");
                 (4, "Total_inflow"); (5, "Flow_lost_flooding")]);
    (2, dict_of [(0, "Flow_rate"); (1, "Flow_depth"); (2, "Flow_velocity");
                 (3, "Froude_number"); (4, "Capacity")]);
    (4, dict_of [(0, "Air_temperature"); (1, "Rainfall"); (2, "Snow_depth");
                 (3, "Evaporation_infiltration"); (4, "Runoff");
                 (5, "Dry_weather_inflow"); (6, "Groundwater_inflow");
                 (7, "RDII_inflow"); (8, "User_direct_inflow");
                 (9, "Total_lateral_inflow"); (10, "Flow_lost_to_flooding");
                 (11, "Flow_leaving_outfalls"); (12, "Volume_stored_water");
                 (13, "Evaporation_rate"); (14, "Potential_PET")]) ].

(** Prior to 5.10.10 *)
Definition VARCODE_OLD : codetable := dict_of
  [ (0, dict_of [(0, "Rainfall"); (1, "Snow_depth"); (2, "Evaporation_loss");
                 (3, "Runoff_rate"); (4, "Groundwater_outflow");
                 (5, "Groundwater_elevation")]);
    (1, dict_of [(0, "Depth_above_invert"); (1, "Hydraulic_head");
                 (2, "Volume_stored_ponded"); (3, "Lateral_inflow");
                 (4, "Total_inflow"); (5, "Flow_lost_flooding")]);
    (2, dict_of [(0, "Flow_rate"); (1, "Flow_depth"); (2, "Flow_velocity");
                 (3, "Froude_number"); (4, "Capacity")]);
    (4, dict_of [(0, "Air_temperature"); (1, "Rainfall"); (2, "Snow_depth");
                 (3, "Evaporation_infiltration"); (4, "Runoff");
                 (5, "Dry_weather_inflow"); (6, "Groundwater_inflow");
                 (7, "RDII_inflow"); (8, "User_direct_inflow");
                 (9, "Total_lateral_inflow"); (10, "Flow_lost_to_flooding");
                 (11, "Flow_leaving_outfalls"); (12, "Volume_stored_water");
                 (13, "Evaporation_rate")]) ].

Definition itemlist_literal : list string :=
  ["subcatchment"; "node"; "link"; "pollutant"; "system"].

Close Scope string_scope.

(** The two variable-code dicts are module-level objects: every
    [SwmmExtract] holds a reference to one of them, and [update_var_code]
    writes through that reference.  [module_state] is the current content
    of the two dicts; [VARCODE] and [VARCODE_OLD] above are their content
    when the module is loaded. *)
Record module_state := {
  m_VARCODE : codetable;
  m_VARCODE_OLD : codetable
}.

Definition module_loaded : module_state :=
  {| m_VARCODE := VARCODE; m_VARCODE_OLD := VARCODE_OLD |}.

Inductive varcode_ref := Ref_VARCODE | Ref_VARCODE_OLD.

Definition deref (r : varcode_ref) (g : module_state) : codetable :=
  match r with
  | Ref_VARCODE => m_VARCODE g
  | Ref_VARCODE_OLD => m_VARCODE_OLD g
  end.

Definition assign (r : varcode_ref) (t : codetable) (g : module_state) : module_state :=
  match r with
  | Ref_VARCODE => {| m_VARCODE := t; m_VARCODE_OLD := m_VARCODE_OLD g |}
  | Ref_VARCODE_OLD => {| m_VARCODE := m_VARCODE g; m_VARCODE_OLD := t |}
  end.

(** ** class SwmmExtract *)

(** A value given as an item type: a type number, a type name, or the NaN
    that [Series.map] leaves for a name it does not know. *)
Inductive pyval :=
  | PInt (z : Z)
  | PStr (s : string)
  | PNaN.

#[global] Instance pyval_eq_dec : EqDecision pyval.
Proof. solve_decision. Defined.

#[global] Instance PStr_inj : Inj (=) (=) PStr.
Proof. intros a b [= ->]. reflexivity. Qed.

(** The attributes of the object, under their names in the source.
    [itemtype] is absent until [name_check] sets it.  [startdate] is the
    date that [datetime.datetime(1899, 12, 30) + datetime.timedelta(...)]
    gives. *)
Record SwmmExtract := {
  RECORDSIZE : Z;
  fp : file_obj;
  Namesstartpos : Z;
  offset0 : Z;
  startpos : Z;
  swmm_nperiods : Z;
  swmm_flowunits : Z;
  swmm_nsubcatch : Z;
  swmm_nnodes : Z;
  swmm_nlinks : Z;
  swmm_npolluts : Z;
  varcode : varcode_ref;
  itemlist : list string;
  names : gmap Z (list string);
  pollutant_codes : list Z;
  propcode : gmap Z (list Z);
  prop : gmap Z (list (list (Z * propval)));
  vars : gmap Z (list Z);
  swmm_nsubcatchvars : Z;
  nnodevars : Z;
  nlinkvars : Z;
  nsystemvars : Z;
  startdate : datetime_us;
  reportinterval : Z;
  bytesperperiod : Z;
  itemtype : option pyval
}.

(** [struct.unpack('i', self.fp.read(self.RECORDSIZE))[0]] *)
Definition read_i : M file_obj Z :=
  let* bs := fp_read 4 in lift (unpack_i bs).

(** [struct.unpack('{0}i'.format(n), self.fp.read(n * self.RECORDSIZE))] *)
Definition read_ni (n : Z) : M file_obj (list Z) :=
  let* bs := fp_read (n * 4) in lift (unpack_ni n bs).

(** One name: a 32-bit length and that many bytes. *)
Definition read_name : M file_obj (list byte) :=
  let* stringsize := read_i in
  let* bs := fp_read stringsize in
  lift (unpack_ns stringsize bs).

(** The property rows of one object type: [count] rows of [nprop] values,
    each zipped with the property codes. *)
Definition read_props (count : Z) (codes : list Z)
    (row : M file_obj (list propval)) : M file_obj (list (list (Z * propval))) :=
  let* rows := repeat_M (Z.to_nat count) row in
  ret (zip codes <$> rows).

(** [[d[i] for i in l]] *)
Fixpoint lookup_all {V} (d : gmap Z V) (l : list Z) : result (list V) :=
  match l with
  | [] => Ok []
  | i :: l' =>
      match d !! i with
      | None => Raise KeyError
      | Some v =>
          match lookup_all d l' with
          | Ok vs => Ok (v :: vs)
          | Raise e => Raise e
          end
      end
  end.

Definition magic_number : Z := 516114522.

(** The second half of [SwmmExtract.__init__], from the comment
    [--- otherwise read additional parameters from start of file] on: it
    runs when the four checks of the first half have passed, with the
    values read from the closing record.  [g] is the content of the
    module-level dicts when the object is built.  Left out: the
    [OverflowError] of the calendar arithmetic for a start date outside the
    years 1 to 9999. *)
Definition read_parameters (g : module_state)
    (Namesstartpos offset0 startpos swmm_nperiods : Z) : M file_obj SwmmExtract :=
  let RECORDSIZE := 4 in
  let* header := read_ni 6 in
  let version := nth 0 header 0 in
  let swmm_flowunits := nth 1 header 0 in
  let swmm_nsubcatch := nth 2 header 0 in
  let swmm_nnodes := nth 3 header 0 in
  let swmm_nlinks := nth 4 header 0 in
  let swmm_npolluts := nth 5 header 0 in
  let varcode := if version <? 5100 then Ref_VARCODE_OLD else Ref_VARCODE in
  let itemlist := itemlist_literal in
  (* Read in the names *)
  fp_seek Namesstartpos 0 ;;
  let* names0 := repeat_M (Z.to_nat swmm_nsubcatch) read_name in
  let* names1 := repeat_M (Z.to_nat swmm_nnodes) read_name in
  let* names2 := repeat_M (Z.to_nat swmm_nlinks) read_name in
  let* names3 := repeat_M (Z.to_nat swmm_npolluts) read_name in
  let names : gmap Z (list string) := dict_of
    [ (0, decode_ascii_replace <$> names0); (1, decode_ascii_replace <$> names1);
      (2, decode_ascii_replace <$> names2); (3, decode_ascii_replace <$> names3);
      (4, []) ] in
  (* Read pollutant concentration codes *)
  let* pollutant_codes := read_ni swmm_npolluts in
  let* nsubprop := read_i in
  let* propcode0 := read_ni nsubprop in
  let* prop0 := read_props swmm_nsubcatch propcode0
                  (let* bs := fp_read (nsubprop * RECORDSIZE) in
                   let* fs := lift (unpack_nf nsubprop bs) in ret (prop_float <$> fs)) in
  let* nnodeprop := read_i in
  let* propcode1 := read_ni nnodeprop in
  let* prop1 := read_props swmm_nnodes propcode1
                  (let* bs := fp_read (nnodeprop * RECORDSIZE) in
                   lift (unpack_i_nf (nnodeprop - 1) bs)) in
  let* nlinkprop := read_i in
  let* propcode2 := read_ni nlinkprop in
  let* prop2 := read_props swmm_nlinks propcode2
                  (let* bs := fp_read (nlinkprop * RECORDSIZE) in
                   lift (unpack_i_nf (nlinkprop - 1) bs)) in
  let* swmm_nsubcatchvars := read_i in
  let* vars0 := read_ni swmm_nsubcatchvars in
  let* nnodevars := read_i in
  let* vars1 := read_ni nnodevars in
  let* nlinkvars := read_i in
  let* vars2 := read_ni nlinkvars in
  let* nsystemvars := read_i in
  let* vars4 := read_ni nsystemvars in
  (* System vars do not have names per se, but made names = number labels *)
  let* varcode4 := lift (match deref varcode g !! 4 with
                         | Some d => Ok d | None => Raise KeyError end) in
  let* names4 := lift (lookup_all varcode4 vars4) in
  let* bs := fp_read (2 * RECORDSIZE) in
  let* startdate := lift (unpack_d bs) in
  let* days := lift (py_int startdate) in
  let seconds := float_mul (float_sub startdate (float_of_int days)) (float_of_int 86400) in
  let* startdate := lift (begindate_plus_us (timedelta_us days seconds)) in
  let* reportinterval := read_i in
  let* f := gets id in
  ret {| RECORDSIZE := RECORDSIZE;
         fp := f;
         Namesstartpos := Namesstartpos;
         offset0 := offset0;
         startpos := startpos;
         swmm_nperiods := swmm_nperiods;
         swmm_flowunits := swmm_flowunits;
         swmm_nsubcatch := swmm_nsubcatch;
         swmm_nnodes := swmm_nnodes;
         swmm_nlinks := swmm_nlinks;
         swmm_npolluts := swmm_npolluts;
         varcode := varcode;
         itemlist := itemlist;
         names := <[4 := names4]> names;
         pollutant_codes := pollutant_codes;
         propcode := dict_of [(0, propcode0); (1, propcode1); (2, propcode2)];
         prop := dict_of [(0, prop0); (1, prop1); (2, prop2)];
         vars := dict_of [(0, vars0); (1, vars1); (2, vars2); (3, [0]); (4, vars4)];
         swmm_nsubcatchvars := swmm_nsubcatchvars;
         nnodevars := nnodevars;
         nlinkvars := nlinkvars;
         nsystemvars := nsystemvars;
         startdate := startdate;
         reportinterval := reportinterval;
         (* Calculate the bytes for each time period when
            reading the computed results *)
         bytesperperiod := RECORDSIZE * (
           2 +
           swmm_nsubcatch * swmm_nsubcatchvars +
           swmm_nnodes * nnodevars +
           swmm_nlinks * nlinkvars +
           nsystemvars);
         itemtype := None |}.


(** [SwmmExtract.__init__]: the closing record, the first magic number and
    the four checks; the computation runs on the file object that
    [open(filename, 'rb')] returns. *)
Definition SwmmExtract__init__body (g : module_state) : M file_obj SwmmExtract :=
  let RECORDSIZE := 4 in
  fp_seek (-6 * RECORDSIZE) 2 ;;
  let* trailer := read_ni 6 in
  let Namesstartpos := nth 0 trailer 0 in
  let offset0 := nth 1 trailer 0 in
  let startpos := nth 2 trailer 0 in
  let swmm_nperiods := nth 3 trailer 0 in
  let errcode := nth 4 trailer 0 in
  let magic2 := nth 5 trailer 0 in
  fp_seek 0 0 ;;
  let* magic1 := read_i in
  if negb (magic1 =? magic_number) then throw (ValueError First_magic_number_incorrect) else
  if negb (magic2 =? magic_number) then throw (ValueError Second_magic_number_incorrect) else
  if negb (errcode =? 0) then throw (ValueError Error_code_in_output_file) else
  if swmm_nperiods =? 0 then throw (ValueError Zero_time_periods) else
  read_parameters g Namesstartpos offset0 startpos swmm_nperiods.

(** [filename] is given by the content of the file. *)
Definition SwmmExtract__init__ (filename : list byte) (g : module_state) : result SwmmExtract :=
  fst (SwmmExtract__init__body g (open_rb filename)).

(** ** The methods of SwmmExtract

    A method runs on the object [self] and on the module-level dicts. *)
Record state := {
  self : SwmmExtract;
  globals : module_state
}.

Definition set_itemtype (t : pyval) (s : state) : state :=
  let o := self s in
  {| self := {| RECORDSIZE := RECORDSIZE o; fp := fp o;
                Namesstartpos := Namesstartpos o; offset0 := offset0 o;
                startpos := startpos o; swmm_nperiods := swmm_nperiods o;
                swmm_flowunits := swmm_flowunits o; swmm_nsubcatch := swmm_nsubcatch o;
                swmm_nnodes := swmm_nnodes o; swmm_nlinks := swmm_nlinks o;
                swmm_npolluts := swmm_npolluts o; varcode := varcode o;
                itemlist := itemlist o; names := names o;
                pollutant_codes := pollutant_codes o; propcode := propcode o;
                prop := prop o; vars := vars o;
                swmm_nsubcatchvars := swmm_nsubcatchvars o; nnodevars := nnodevars o;
                nlinkvars := nlinkvars o; nsystemvars := nsystemvars o;
                startdate := startdate o; reportinterval := reportinterval o;
                bytesperperiod := bytesperperiod o;
                itemtype := Some t |};
     globals := globals s |}.

Definition set_fp (f : file_obj) (s : state) : state :=
  let o := self s in
  {| self := {| RECORDSIZE := RECORDSIZE o; fp := f;
                Namesstartpos := Namesstartpos o; offset0 := offset0 o;
                startpos := startpos o; swmm_nperiods := swmm_nperiods o;
                swmm_flowunits := swmm_flowunits o; swmm_nsubcatch := swmm_nsubcatch o;
                swmm_nnodes := swmm_nnodes o; swmm_nlinks := swmm_nlinks o;
                swmm_npolluts := swmm_npolluts o; varcode := varcode o;
                itemlist := itemlist o; names := names o;
                pollutant_codes := pollutant_codes o; propcode := propcode o;
                prop := prop o; vars := vars o;
                swmm_nsubcatchvars := swmm_nsubcatchvars o; nnodevars := nnodevars o;
                nlinkvars := nlinkvars o; nsystemvars := nsystemvars o;
                startdate := startdate o; reportinterval := reportinterval o;
                bytesperperiod := bytesperperiod o;
                itemtype := itemtype o |};
     globals := globals s |}.

Definition set_globals (g : module_state) (s : state) : state :=
  {| self := self s; globals := g |}.

(** [self.fp.<operation>] *)
Definition self_fp {A} (c : M file_obj A) : M state A :=
  zoom (fun s => fp (self s)) set_fp c.

(** [self.<attribute>] *)
Definition attr {A} (f : SwmmExtract -> A) : M state A := gets (fun s => f (self s)).

(** [d[k]] for a dict [d] with integer keys and any value [k] *)
Definition getitem {V} (d : gmap Z V) (k : pyval) : result V :=
  match k with
  | PInt z => match d !! z with Some v => Ok v | None => Raise KeyError end
  | _ => Raise KeyError
  end.

Definition update_var_code (typenumber : pyval) : M state unit :=
  let* r := attr varcode in
  let* g := gets globals in
  let* d := lift (getitem (deref r g) typenumber) in
  let start := Z.of_nat (size d) in
  let* nm := attr names in
  let* names3 := lift (getitem nm (PInt 3)) in
  let end_ := start + Z.of_nat (length names3) in
  let nlabels := range2 start end_ in
  let ndict := zip nlabels names3 in
  (* self.varcode[typenumber].update(ndict) *)
  let d' := foldl (fun m kv => <[kv.1 := kv.2]> m) d ndict in
  match typenumber with
  | PInt z => modify (set_globals (assign r (<[z := d']> (deref r g)) g))
  | _ => ret tt
  end.

Definition type_check (itemtype : pyval) : M state pyval :=
  if decide (itemtype ∈ PInt <$> [0; 1; 2; 3; 4]) then ret itemtype
  else
    let* l := attr itemlist in
    match list_index itemtype (PStr <$> l) with
    | Some typenumber => ret (PInt typenumber)
    | None => throw (ValueError Type_argument_incorrect)
    end.

Definition name_check (itemtype : pyval) (itemname : string) : M state (string * Z) :=
  let* t := type_check itemtype in
  modify (set_itemtype t) ;;
  let* nm := attr names in
  match getitem nm t with
  | Ok l =>
      match list_index itemname l with
      | Some itemindex => ret (itemname, itemindex)
      | None => throw (ValueError Name_not_found)
      end
  | Raise _ => throw (ValueError Name_not_found)
  end.

Definition get_swmm_results (itemtype : pyval) (name : string)
    (variableindex period : Z) : M state (pyfloat * pyfloat) :=
  if decide (itemtype ∉ PInt <$> [0; 1; 2; 4])
  then throw (ValueError Type_must_be_one_of_0_1_2_4)
  else
  let* '(_, itemindex) := name_check itemtype name in
  let* o := gets self in
  let date_offset := startpos o + period * bytesperperiod o in
  self_fp (fp_seek date_offset 0) ;;
  let* bs := self_fp (fp_read (2 * RECORDSIZE o)) in
  let* date := lift (unpack_d bs) in
  let offset := date_offset + 2 * RECORDSIZE o in (* skip the date *)
  let offset :=
    if decide (itemtype = PInt 0) then
      offset + RECORDSIZE o * (itemindex * swmm_nsubcatchvars o)
    else offset in
  let offset :=
    if decide (itemtype = PInt 1) then
      offset + RECORDSIZE o * (
        swmm_nsubcatch o * swmm_nsubcatchvars o +
        itemindex * nnodevars o)
    else if decide (itemtype = PInt 2) then
      offset + RECORDSIZE o * (
        swmm_nsubcatch o * swmm_nsubcatchvars o +
        swmm_nnodes o * nnodevars o +
        itemindex * nlinkvars o)
    else if decide (itemtype = PInt 4) then
      offset + RECORDSIZE o * (
        swmm_nsubcatch o * swmm_nsubcatchvars o +
        swmm_nnodes o * nnodevars o +
        swmm_nlinks o * nlinkvars o)
    else offset in
  let offset := offset + RECORDSIZE o * variableindex in
  self_fp (fp_seek offset 0) ;;
  let* bs := self_fp (fp_read (RECORDSIZE o)) in
  let* value := lift (unpack_f bs) in
  ret (date, value).

(** A calendar value [datetime.datetime(1899, 12, 30) + timedelta]: the
    days from 1899-12-30 and the second of the day. *)
Definition datetime : Type := Z * Z.

(** [datetime.datetime(1899, 12, 30) + datetime.timedelta(days=days,
    seconds=seconds)] for integer arguments: the timedelta is normalised to
    seconds in [0, 86400); a timedelta of more than 999999999 days and a
    date outside the years 1 to 9999 are an [OverflowError].  1899-12-30
    is day 693594 of the proleptic calendar, 9999-12-31 is day 3652059. *)
Definition begindate_plus (days seconds : Z) : result datetime :=
  let d := days + seconds / 86400 in
  let s := seconds mod 86400 in
  if (d <? -999999999) || (999999999 <? d) then Raise OverflowError
  else if (693594 + d <? 1) || (3652059 <? 693594 + d) then Raise OverflowError
  else Ok (d, s).


(** ** The commands

    A label ['TYPE,NAME,VARINDEX'] is given by its three fields, the third
    one as the integer it denotes: the text handling of [label.split(',')]
    and [int(variableindex)] is in front of the embedding. *)
Record label := {
  l_itemtype : string;
  l_name : string;
  l_variableindex : Z
}.

(** Running a command body on the object built from the file. *)
Definition with_obj {A} (filename : list byte) (body : M state A) : M module_state A :=
  fun g =>
    match SwmmExtract__init__ filename g with
    | Raise e => (Raise e, g)
    | Ok obj => let (r, s) := body {| self := obj; globals := g |} in (r, globals s)
    end.

(** [if x:] for an item type given or left as [''] *)
Definition truthy (v : pyval) : bool :=
  match v with
  | PInt z => negb (z =? 0)
  | PStr s => negb (String.eqb s EmptyString)
  | PNaN => true
  end.

(** List the catalog of objects in output file: the rows [TYPE, NAME]. *)
Definition catalog_body (itemtype : pyval) : M state (list (string * string)) :=
  let* plist :=
    (if truthy itemtype
     then let* typenumber := type_check itemtype in ret [typenumber]
     else let* l := attr itemlist in ret (PInt <$> range (Z.of_nat (length l)))) in
  let* rows :=
    map_M (fun i =>
             let* nm := attr names in
             let* l := attr itemlist in
             let* onames := lift (getitem nm i) in
             match i with
             | PInt z =>
                 match l !! Z.to_nat z with
                 | Some t => ret ((fun oname => (t, oname)) <$> onames)
                 | None => throw IndexError
                 end
             | _ => throw IndexError
             end)
          plist in
  ret (concat rows).

Definition catalog (filename : list byte) (itemtype : pyval) :
    M module_state (list (string * string)) :=
  with_obj filename (catalog_body itemtype).

(** List variables available for each type: the rows
    [TYPE, DESCRIPTION, VARINDEX]. *)
Definition listvariables_body : M state (list (string * string * Z)) :=
  let* rows :=
    map_M (fun itemtype =>
             let* typenumber := type_check (PStr itemtype) in
             update_var_code typenumber ;;
             let* vs := attr vars in
             let* codes := lift (getitem vs typenumber) in
             map_M (fun i =>
                      let* r := attr varcode in
                      let* g := gets globals in
                      let* d := lift (getitem (deref r g) typenumber) in
                      let* description := lift (getitem d (PInt i)) in
                      ret (itemtype, description, i))
                   codes)
          ["subcatchment"; "node"; "link"; "system"]%string in
  ret (concat rows).

Definition listvariables (filename : list byte) : M module_state (list (string * string * Z)) :=
  with_obj filename listvariables_body.

(** A property value used as a dict key: a float is the key of the integer
    it equals, if any. *)
Definition key_of_propval (v : propval) : pyval :=
  match v with
  | prop_int z => PInt z
  | prop_float x =>
      match py_int x with
      | Ok z => if SFeqb x (float_of_int z) then PInt z else PNaN
      | Raise _ => PNaN
      end
  end.

(** A cell of the table of [listdetail]. *)
Inductive cell :=
  | cell_str (s : string)
  | cell_val (v : propval).

(** The column labels of the frame: a heading that is already among them
    gets its number of occurrences as a suffix. *)
Definition cheader_of (header : list string) : list string :=
  foldl (fun cheader head =>
           if bool_decide (head ∈ cheader)
           then let cnt := length (filter (eq head) cheader) in
                cheader ++ [head +:+ "." +:+ pretty cnt]
           else cheader ++ [head])
        [] header.

(** The number of columns of [pd.DataFrame(collect)]: that of the longest
    row. *)
Definition frame_width {A} (collect : list (list A)) : nat :=
  foldr Nat.max 0%nat (length <$> collect).

(** The frame [df] and the headings given to [tsutils.printiso], which
    renders the table. *)
Record listing := {
  df_columns : list string;
  df_rows : list (list cell);
  headers : list string
}.

(** List nodes and metadata in output file: the frame and the headings,
    before the table is rendered.  [header] is the default one. *)
Definition listdetail_body (itemtype : pyval) (name : string) : M state listing :=
  let* typenumber := type_check itemtype in
  let* objectlist :=
    (if negb (String.eqb name EmptyString)
     then let* '(n, _) := name_check itemtype name in ret [n]
     else let* nm := attr names in lift (getitem nm typenumber)) in
  let* pc := attr propcode in
  let* propnumbers := lift (getitem pc typenumber) in
  let* labels := lift (match getitem PROPCODE typenumber with
                       | Ok d => lookup_all d propnumbers
                       | Raise e => Raise e
                       end) in
  let header := "#Name"%string :: labels in
  let* collect :=
    map_M (fun '(i, oname) =>
             let* pr := attr prop in
             let* rows := lift (getitem pr typenumber) in
             match rows !! Z.to_nat i with
             | None => throw IndexError
             | Some row =>
                 let* printvar :=
                   map_M (fun j : Z * propval =>
                            if j.1 =? 0 then
                              lift (match getitem TYPECODE typenumber with
                                    | Ok d =>
                                        match getitem d (key_of_propval j.2) with
                                        | Ok t => Ok (cell_str t)
                                        | Raise e => Raise e
                                        end
                                    | Raise e => Raise e
                                    end)
                            else ret (cell_val j.2))
                         row in
                 ret (cell_str oname :: printvar)
             end)
          (zip (range (Z.of_nat (length objectlist))) objectlist) in
  let cheader := cheader_of header in
  (* df.columns = cheader *)
  if negb (frame_width collect =? length cheader)%nat
  then throw (ValueError Length_mismatch)
  else ret {| df_columns := cheader; df_rows := collect; headers := header |}.

Definition listdetail (filename : list byte) (itemtype : pyval) (name : string) :
    M module_state listing :=
  with_obj filename (listdetail_body itemtype name).

(** The rounding of the seconds of a date in [extract]: [extra = seconds %
    10] and the two corrections under [if extra != 0]. *)
Definition seconds_correction (seconds : Z) : Z :=
  let extra := seconds mod 10 in
  if negb (extra =? 0) then
    let seconds := if extra =? 9 then seconds + 1 else seconds in
    let seconds := if extra =? 1 then seconds - 1 else seconds in
    seconds
  else seconds.

(** The body of the loop [for time in range(obj.swmm_nperiods)] of
    [extract]. *)
Definition extract_period (typenumber : pyval) (name : string)
    (variableindex time : Z) : M state (datetime * pyfloat) :=
  let* '(date, value) := get_swmm_results typenumber name variableindex time in
  let* days := lift (py_int date) in
  let* seconds := lift (py_int (float_mul (float_sub date (float_of_int days))
                                          (float_of_int 86400))) in
  let seconds := seconds_correction seconds in
  let* date := lift (begindate_plus days seconds) in
  ret (date, value).

(** One column of the result of [extract]: the three parts of its heading
    ['{0}_{1}_{2}'], the dates and the values. *)
Record series := {
  s_heading : string * string * string;
  s_dates : list datetime;
  s_values : list pyfloat
}.

(** The body of the loop [for label in labels] of [extract]. *)
Definition extract_label (l : label) : M state series :=
  let itemtype := l_itemtype l in
  let variableindex := l_variableindex l in
  let* typenumber := type_check (PStr itemtype) in
  let* '(name, _) := name_check (PStr itemtype) (l_name l) in
  update_var_code typenumber ;;
  let* nperiods := attr swmm_nperiods in
  let* rows := map_M (extract_period typenumber name variableindex) (range nperiods) in
  let* r := attr varcode in
  let* g := gets globals in
  let* d := lift (getitem (deref r g) typenumber) in
  let* varname := lift (getitem d (PInt variableindex)) in
  ret {| s_heading := (itemtype, name, varname);
         s_dates := fst <$> rows;
         s_values := snd <$> rows |}.

(** Get the time series data for a particular object and variable: the
    columns that are joined and printed. *)
Definition extract_body (labels : list label) : M state (list series) :=
  let* jtsd := map_M extract_label labels in
  match jtsd with
  | [] => throw IndexError       (* jtsd[0] *)
  | _ => ret jtsd
  end.

Definition extract (filename : list byte) (labels : list label) :
    M module_state (list series) :=
  with_obj filename (extract_body labels).

(** DEPRECATED: Use 'extract' instead. *)
Definition getdata (filename : list byte) (labels : list label) :
    M module_state (list series) :=
  extract filename labels.

(** Same as extract except it returns the raw numpy array: the values of
    the last label. *)
Definition extract_arr_label (l : label) : M state (list pyfloat) :=
  let itemtype := l_itemtype l in
  let variableindex := l_variableindex l in
  let* typenumber := type_check (PStr itemtype) in
  let* name :=
    (if negb (String.eqb itemtype "system")
     then let* '(n, _) := name_check (PStr itemtype) (l_name l) in ret n
     else ret (l_name l)) in
  update_var_code typenumber ;;
  let* nperiods := attr swmm_nperiods in
  map_M (fun time =>
           let* '(_, value) := get_swmm_results typenumber name variableindex time in
           ret value)
        (range nperiods).

Definition extract_arr_body (labels : list label) : M state (list pyfloat) :=
  let* datas := map_M extract_arr_label labels in
  match last datas with
  | Some data => ret data
  | None => throw UnboundLocalError
  end.

Definition extract_arr (filename : list byte) (labels : list label) :
    M module_state (list pyfloat) :=
  with_obj filename (extract_arr_body labels).

(** ** fast_extract *)

(** numpy arrays of integers and of booleans are lists; the arithmetic of
    [int64] arrays is exact on the offsets of a file (no wrap-around below
    2^63). *)

(** [a[idx] = 1] for an array of booleans and an array of indices: a
    negative index counts from the end, an index outside [-len, len) is an
    [IndexError]. *)
Fixpoint mask_set (a : list bool) (idx : list Z) : result (list bool) :=
  match idx with
  | [] => Ok a
  | i :: idx' =>
      let n := Z.of_nat (length a) in
      if (i <? - n) || (n <=? i) then Raise IndexError
      else mask_set (<[Z.to_nat (if i <? 0 then i + n else i) := true]> a) idx'
  end.

(** [for i in range(n): a[idx + i] = 1] *)
Fixpoint mask_set_range (a : list bool) (idx : list Z) (r : list Z) : result (list bool) :=
  match r with
  | [] => Ok a
  | i :: r' =>
      match mask_set a ((fun o => o + i) <$> idx) with
      | Ok a' => mask_set_range a' idx r'
      | Raise e => Raise e
      end
  end.

(** [numpy.zeros(n).astype(bool)] *)
Definition np_zeros (n : Z) : result (list bool) :=
  if n <? 0 then Raise (ValueError Negative_dimensions)
  else Ok (replicate (Z.to_nat n) false).

(** [a[mask]] for a boolean mask of the length of [a] *)
Fixpoint np_select {A} (a : list A) (mask : list bool) : list A :=
  match a, mask with
  | x :: a', b :: mask' => if b then x :: np_select a' mask' else np_select a' mask'
  | _, _ => []
  end.

(** [mmap.mmap(fileno, prot=PROT_READ, length=length, offset=offset)]
    read as an array of bytes.  A length of 0 maps the file from the
    offset to its end. *)
Definition mmap_mmap (len offset : Z) : M file_obj (list byte) :=
  fun f =>
    let f' := {| f_bytes := f_bytes f; f_pos := f_pos f;
                 f_log := f_log f ++ [io_mmap offset len] |} in
    if (len <? 0) || (offset <? 0) then (Raise OverflowError, f)
    else if len =? 0 then
      if f_size f <=? offset
      then (Raise (ValueError Mmap_length_greater_than_file_size), f)
      else (Ok (drop (Z.to_nat offset) (f_bytes f)), f')
    else if (f_size f <? offset) || (f_size f - offset <? len)
      then (Raise (ValueError Mmap_length_greater_than_file_size), f)
      else (Ok (take (Z.to_nat len) (drop (Z.to_nat offset) (f_bytes f))), f').

(** A pandas Series: the labels of its index and its values, in order. *)
Definition Series (A : Type) : Type := list (Z * A).

(** [pd.Series(l)]: the index is [0, 1, ...]. *)
Definition Series_of {A} (l : list A) : Series A :=
  zip (range (Z.of_nat (length l))) l.

(** Lexicographic order on the rows [(type, item, variable)] and the stable
    sort of [DataFrame.sort_values(by=[0, 1, 2])]: the rows keep their
    index labels. *)
Definition row_leb (a b : Z * Z * Z) : bool :=
  let '(a0, a1, a2) := a in
  let '(b0, b1, b2) := b in
  (a0 <? b0) || ((a0 =? b0) && ((a1 <? b1) || ((a1 =? b1) && (a2 <=? b2)))).

Fixpoint row_insert (x : Z * (Z * Z * Z)) (l : Series (Z * Z * Z)) : Series (Z * Z * Z) :=
  match l with
  | [] => [x]
  | y :: l' => if row_leb x.2 y.2 then x :: y :: l' else y :: row_insert x l'
  end.

Definition sort_values (l : Series (Z * Z * Z)) : Series (Z * Z * Z) :=
  foldr row_insert [] l.

(** [Series.sort_index()] *)
Fixpoint index_insert {A} (x : Z * A) (l : Series A) : Series A :=
  match l with
  | [] => [x]
  | y :: l' => if x.1 <=? y.1 then x :: y :: l' else y :: index_insert x l'
  end.

Definition sort_index {A} (l : Series A) : Series A :=
  foldr index_insert [] l.

(** [s[~s.index.duplicated(keep='first')]] *)
Fixpoint drop_duplicated {A} (seen : list Z) (l : Series A) : Series A :=
  match l with
  | [] => []
  | x :: l' =>
      if decide (x.1 ∈ seen) then drop_duplicated seen l'
      else x :: drop_duplicated (x.1 :: seen) l'
  end.

(** The value of a Series at an index label. *)
Fixpoint at_label {A} (l : Series A) (k : Z) : option A :=
  match l with
  | [] => None
  | x :: l' => if x.1 =? k then Some x.2 else at_label l' k
  end.

(** [Series.map(d).astype(str)] for a dict or a Series [d] of strings: the
    text ['nan'] where [d] has no entry. *)
Definition map_astype_str (d : Z -> option string) (s : Series Z) : Series string :=
  (fun x => (x.1, default "nan"%string (d x.2))) <$> s.

(** [a + b] for two Series of strings.  Series with the same index are
    added value by value; otherwise pandas aligns them: the result is
    indexed by the sorted union of the two indexes (here the two always
    hold the same labels), and each value is the sum of the values at that
    label. *)
Definition series_add (a b : Series string) : Series string :=
  if decide (a.*1 = b.*1) then
    zip_with (fun x y => (x.1, x.2 +:+ y.2)) a b
  else
    (fun x : Z * string => (x.1, x.2 +:+ default "nan"%string (at_label b x.1)))
      <$> sort_index a.

(** [s + '_'] *)
Definition series_add_str (a : Series string) (t : string) : Series string :=
  (fun x => (x.1, x.2 +:+ t)) <$> a.

(** The result table: the dates as read from the file (the conversion
    [pandas.to_datetime(dates, unit='d', origin=begindate)] is not
    modelled), the headings of the columns, and one row of values per
    period. *)
Record table := {
  t_index : list pyfloat;
  t_columns : list string;
  t_data : list (list pyfloat)
}.

(** [pd.DataFrame(numpy.vstack(ts), index=date_index, columns=headings)] *)
Definition DataFrame (ts : list (list pyfloat)) (date_index : list pyfloat)
    (headings : list string) : result table :=
  match ts with
  | [] => Raise (ValueError Need_at_least_one_array)
  | r :: _ =>
      if (length r =? length headings)%nat && (length ts =? length date_index)%nat
      then Ok {| t_index := date_index; t_columns := headings; t_data := ts |}
      else Raise (ValueError Shape_of_passed_values)
  end.

Definition namemap : gmap Z string :=
  dict_of [(0, "subcatchment"); (1, "node"); (2, "link"); (4, "system")]%string.

(** [{v: k for k, v in namemap.items()}] *)
Definition namemap_inverse : gmap string Z :=
  list_to_map ((fun kv : Z * string => (kv.2, kv.1)) <$> map_to_list namemap).

(** [Series.map(d)]: NaN where the dict has no key. *)
Definition series_map (d : gmap string Z) (s : string) : pyval :=
  match d !! s with
  | Some k => PInt k
  | None => PNaN
  end.

Definition typemap (obj : SwmmExtract) : gmap Z Z := dict_of
  [ (0, 0);
    (1, RECORDSIZE obj * swmm_nsubcatch obj * swmm_nsubcatchvars obj);
    (2, RECORDSIZE obj * swmm_nsubcatch obj * swmm_nsubcatchvars obj +
        RECORDSIZE obj * swmm_nnodes obj * nnodevars obj);
    (4, RECORDSIZE obj * swmm_nsubcatch obj * swmm_nsubcatchvars obj +
        RECORDSIZE obj * swmm_nnodes obj * nnodevars obj +
        RECORDSIZE obj * swmm_nlinks obj * nlinkvars obj) ].

Definition varmap (obj : SwmmExtract) : gmap Z Z := dict_of
  [ (0, swmm_nsubcatchvars obj);
    (1, nnodevars obj);
    (2, nlinkvars obj);
    (4, nsystemvars obj) ].

(** The integer of a resolved item type (every type that [name_check]
    accepted from [namemap] is one). *)
Definition int_of (v : pyval) : Z :=
  match v with
  | PInt z => z
  | _ => 0
  end.

(** [type_offsets + item_offsets + var_offsets] *)
Definition all_offsets (obj : SwmmExtract) (itypes items varix : list Z) : list Z :=
  let type_offsets := (fun t => typemap obj !!! t) <$> itypes in
  let item_offsets :=
    zip_with (fun i v => i * v * RECORDSIZE obj) items ((fun t => varmap obj !!! t) <$> itypes) in
  let var_offsets := (fun v => v * RECORDSIZE obj) <$> varix in
  zip_with Z.add (zip_with Z.add type_offsets item_offsets) var_offsets.

(** The mask of the bytes to extract from one period:
    [bool_mask = zeros(obj.bytesperperiod - 2)], [record_mask[all_offsets]
    = 1] and the loop [bool_mask[all_offsets + i] = 1]. *)
Definition bool_mask (obj : SwmmExtract) (offs : list Z) : result (list bool) :=
  match np_zeros (bytesperperiod obj - 2) with
  | Raise e => Raise e
  | Ok zeros =>
      match mask_set zeros offs with      (* record_mask *)
      | Raise e => Raise e
      | Ok _ => mask_set_range zeros offs (range (RECORDSIZE obj))
      end
  end.

Section FastExtract.

(** [mmap.ALLOCATIONGRANULARITY], a constant of the platform. *)
Variable ALLOCATIONGRANULARITY : Z.

(** The body of the loop over the periods: the values of the requested
    records of period [start_ix].  [offsets] is indexed by the period.
    [math.floor(offsets[start_ix] / ALLOCATIONGRANULARITY)] is the floor of
    the quotient (the float division is exact below 2^53). *)
Definition fast_extract_period (obj : SwmmExtract) (mask : list bool)
    (offsets : Z -> Z) (start_ix : Z) : M state (list pyfloat) :=
  let end_ix := start_ix + 1 in
  let mmap_offset := ALLOCATIONGRANULARITY * (offsets start_ix / ALLOCATIONGRANULARITY) in
  let mmap_endpoint := offsets end_ix - 2 in
  let mmap_length := mmap_endpoint - mmap_offset in
  if negb (mmap_offset mod ALLOCATIONGRANULARITY =? 0) then throw AssertionError else
  let mmap_start_gap := offsets start_ix - mmap_offset in
  let mmap_end_gap := mmap_endpoint - (offsets end_ix - 2) in
  if (mmap_start_gap <? 0) || (mmap_end_gap <? 0)
  then throw (ValueError Negative_dimensions) else
  let mmap_bool_mask :=
    replicate (Z.to_nat mmap_start_gap) false ++ mask ++
    replicate (Z.to_nat mmap_end_gap) false in
  let* mmap_fp := self_fp (mmap_mmap mmap_length mmap_offset) in
  if negb (length mmap_fp =? length mmap_bool_mask)%nat then throw IndexError else
  let selected := np_select mmap_fp mmap_bool_mask in
  (* .reshape(-1, obj.RECORDSIZE), then .view(dtype=float32).ravel() *)
  if negb (Z.of_nat (length selected) mod RECORDSIZE obj =? 0)
  then throw (ValueError Cannot_reshape) else
  let records := chunks (Z.to_nat (Z.of_nat (length selected) / RECORDSIZE obj))
                        (Z.to_nat (RECORDSIZE obj)) selected in
  ret (float_of_bytes <$> records).

Definition fast_extract_body (labels : list label) : M state table :=
  let* obj := gets self in
  match labels with
  | [] => throw AttributeError       (* pd.Series(()).str *)
  | _ =>
  let itypename := l_itemtype <$> labels in
  let item_names := l_name <$> labels in
  let varix := l_variableindex <$> labels in
  let itypes := series_map namemap_inverse <$> itypename in
  let* itemindices :=
    map_M (fun '(dtype, name) =>
             let* '(_, itemindex) := name_check dtype name in ret itemindex)
          (zip itypes item_names) in
  let item_name_map := drop_duplicated [] (zip itemindices item_names) in
  let items := itemindices in
  let itypes := int_of <$> itypes in
  let periods := range (swmm_nperiods obj + 1) in
  let date_offsets period := startpos obj + period * bytesperperiod obj in
  let offsets period := date_offsets period + 2 * RECORDSIZE obj in
  let offs := all_offsets obj itypes items varix in
  let* mask := lift (bool_mask obj offs) in
  let* ts := map_M (fast_extract_period obj mask offsets) (removelast periods) in
  let* dates :=
    map_M (fun period =>
             self_fp (fp_seek (date_offsets period) 0) ;;
             let* bs := self_fp (fp_read (2 * RECORDSIZE obj)) in
             lift (unpack_d bs))
          (removelast periods) in
  let* g := gets globals in
  let record_order := sort_values (Series_of (zip (zip itypes items) varix)) in
  let record_type_names :=
    map_astype_str (fun t => namemap !! t) ((fun x => (x.1, x.2.1.1)) <$> record_order) in
  let record_item_names :=
    map_astype_str (at_label item_name_map) ((fun x => (x.1, x.2.1.2)) <$> record_order) in
  let record_var_names :=
    sort_index (concat (
      (fun i : Z * gmap Z string =>
         map_astype_str (fun v => i.2 !! v)
           ((fun x => (x.1, x.2.2)) <$> filter (fun x => x.2.1.1 = i.1) record_order))
      <$> map_to_list (m_VARCODE g))) in
  let headings :=
    series_add
      (series_add_str (series_add (series_add_str record_type_names "_") record_item_names) "_")
      record_var_names in
  lift (DataFrame ts dates headings.*2)
  end.

Definition fast_extract (filename : list byte) (labels : list label) : M module_state table :=
  with_obj filename (fast_extract_body labels).

End FastExtract.

(** ** Output files to run the reader on

    [build_file] writes the byte image of an output file from a
    description of its content, in the layout that [SwmmExtract.__init__]
    reads: the header at the start, the names at byte 28, the property and
    variable tables, the start date and report interval, the period
    records, and the six closing integers. *)

Definition pack_i (z : Z) : list byte := le_split 4 (z mod 2 ^ 32).

(** The binary32 and binary64 patterns of [n * 2^k], for [n > 0]. *)
Definition bits32_of (n k : Z) : Z :=
  let e := Z.log2 n in
  (127 + e + k) * 2 ^ 23 + (n - 2 ^ e) * 2 ^ (23 - e).

Definition bits64_of (n k : Z) : Z :=
  let e := Z.log2 n in
  (1023 + e + k) * 2 ^ 52 + (n - 2 ^ e) * 2 ^ (52 - e).

Definition pack_f (n : Z) : list byte := le_split 4 (bits32_of n 0).
Definition pack_d (n k : Z) : list byte := le_split 8 (bits64_of n k).

Definition pack_name (s : string) : list byte :=
  let bs := String.list_byte_of_string s in
  pack_i (Z.of_nat (length bs)) ++ bs.

Record out_file := {
  o_magic1 : Z;
  o_version : Z;
  o_subcatchments : list string;
  o_nodes : list string;
  o_links : list string;
  o_pollutants : list string;
  o_subcatchvars : list Z;
  o_nodevars : list Z;
  o_linkvars : list Z;
  o_systemvars : list Z;
  o_startdate : Z * Z;               (* n, k: the date n * 2^k *)
  o_reportinterval : Z;
  o_records : list ((Z * Z) * list Z); (* date n * 2^k, values as integers *)
  o_nperiods : Z;
  o_errcode : Z;
  o_magic2 : Z
}.

Definition build_file (o : out_file) : list byte :=
  let count {A} (l : list A) := Z.of_nat (length l) in
  let head :=
    pack_i (o_magic1 o) ++ pack_i (o_version o) ++ pack_i 0 ++
    pack_i (count (o_subcatchments o)) ++ pack_i (count (o_nodes o)) ++
    pack_i (count (o_links o)) ++ pack_i (count (o_pollutants o)) in
  let names :=
    concat (pack_name <$> o_subcatchments o ++ o_nodes o ++ o_links o ++ o_pollutants o) in
  let props :=
    concat ((fun _ => pack_i 0) <$> o_pollutants o) ++
    pack_i 1 ++ pack_i 1 ++
    concat ((fun _ => pack_f 10) <$> o_subcatchments o) ++
    pack_i 3 ++ pack_i 0 ++ pack_i 2 ++ pack_i 3 ++
    concat ((fun _ => pack_i 0 ++ pack_f 1 ++ pack_f 2) <$> o_nodes o) ++
    pack_i 4 ++ pack_i 0 ++ pack_i 4 ++ pack_i 3 ++ pack_i 5 ++
    concat ((fun _ => pack_i 0 ++ pack_f 1 ++ pack_f 2 ++ pack_f 3) <$> o_links o) in
  let codes l := pack_i (count l) ++ concat (pack_i <$> l) in
  let vars :=
    codes (o_subcatchvars o) ++ codes (o_nodevars o) ++
    codes (o_linkvars o) ++ codes (o_systemvars o) in
  let dates :=
    pack_d (o_startdate o).1 (o_startdate o).2 ++ pack_i (o_reportinterval o) in
  let front := head ++ names ++ props ++ vars ++ dates in
  let records :=
    concat ((fun r : (Z * Z) * list Z =>
               pack_d r.1.1 r.1.2 ++ concat (pack_f <$> r.2)) <$> o_records o) in
  let closing :=
    pack_i 28 ++ pack_i (28 + count names) ++ pack_i (count front) ++
    pack_i (o_nperiods o) ++ pack_i (o_errcode o) ++ pack_i (o_magic2 o) in
  front ++ records ++ closing.

(** One period of values [base + 1, base + 2, ...], [n] of them. *)
Definition values_from (base n : Z) : list Z := (fun i => base + 1 + i) <$> range n.

Open Scope string_scope.

(** The file of the scenario: 1 subcatchment with 2 variables, 2 nodes with
    3 variables each, 1 link with 2 variables, no pollutant, 1 system
    variable, 3 periods half a day apart from day 40000. *)
Definition scenario : out_file :=
  {| o_magic1 := magic_number; o_version := 51000;
     o_subcatchments := ["S1"]; o_nodes := ["N1"; "N2"]; o_links := ["L1"];
     o_pollutants := [];
     o_subcatchvars := [0; 1]; o_nodevars := [0; 1; 2]; o_linkvars := [0; 1];
     o_systemvars := [0];
     o_startdate := (80000, -1); o_reportinterval := 43200;
     o_records := [ ((80000, -1), values_from 100 11);
                    ((80001, -1), values_from 200 11);
                    ((80002, -1), values_from 300 11) ];
     o_nperiods := 3; o_errcode := 0; o_magic2 := magic_number |}.

Definition scenario_out : list byte := Eval vm_compute in build_file scenario.

(** The same objects with two system variables and one pollutant (every
    subcatchment, node and link then reports one variable more). *)
Definition polluted : out_file :=
  {| o_magic1 := magic_number; o_version := 51000;
     o_subcatchments := ["S1"]; o_nodes := ["N1"; "N2"]; o_links := ["L1"];
     o_pollutants := ["TSS"];
     o_subcatchvars := [0; 1; 2]; o_nodevars := [0; 1; 2; 3]; o_linkvars := [0; 1; 2];
     o_systemvars := [0; 1];
     o_startdate := (80000, -1); o_reportinterval := 43200;
     o_records := [ ((80000, -1), values_from 100 16);
                    ((80001, -1), values_from 200 16);
                    ((80002, -1), values_from 300 16) ];
     o_nperiods := 3; o_errcode := 0; o_magic2 := magic_number |}.

Definition polluted_out : list byte := Eval vm_compute in build_file polluted.

(** The scenario with a stored period count of -1. *)
Definition negative_periods : out_file :=
  {| o_magic1 := magic_number; o_version := 51000;
     o_subcatchments := ["S1"]; o_nodes := ["N1"; "N2"]; o_links := ["L1"];
     o_pollutants := [];
     o_subcatchvars := [0; 1]; o_nodevars := [0; 1; 2]; o_linkvars := [0; 1];
     o_systemvars := [0];
     o_startdate := (80000, -1); o_reportinterval := 43200;
     o_records := [ ((80000, -1), values_from 100 11);
                    ((80001, -1), values_from 200 11);
                    ((80002, -1), values_from 300 11) ];
     o_nperiods := -1; o_errcode := 0; o_magic2 := magic_number |}.

Definition negative_periods_out : list byte := Eval vm_compute in build_file negative_periods.

Close Scope string_scope.

(** ** The quantities of the specification *)

(** The fixed order of the types in a period record. *)
Definition type_order : list Z := [0; 1; 2; 4].

(** The number of objects of a type; the system counts as one object. *)
Definition count (o : SwmmExtract) (t : Z) : Z :=
  if t =? 0 then swmm_nsubcatch o
  else if t =? 1 then swmm_nnodes o
  else if t =? 2 then swmm_nlinks o
  else if t =? 4 then 1
  else 0.

(** The number of variables reported for each object of a type. *)
Definition varCount (o : SwmmExtract) (t : Z) : Z :=
  if t =? 0 then swmm_nsubcatchvars o
  else if t =? 1 then nnodevars o
  else if t =? 2 then nlinkvars o
  else if t =? 4 then nsystemvars o
  else 0.

Definition sumZ (l : list Z) : Z := foldr Z.add 0 l.

(** The types that precede [t] in the fixed order. *)
Fixpoint preceding (t : Z) (order : list Z) : list Z :=
  match order with
  | [] => []
  | t' :: order' => if t' =? t then [] else t' :: preceding t order'
  end.

(** [recordSize] times the sum of [count * varCount] over the types that
    precede [t]. *)
Definition typeBase (o : SwmmExtract) (t : Z) : Z :=
  RECORDSIZE o * sumZ ((fun t' => count o t' * varCount o t') <$> preceding t type_order).

(** The offset of a value as the specification writes it:
    [periodBase + 2*recordSize + typeBase + itemOffset + varOffset]. *)
Definition valueOffset (o : SwmmExtract) (t itemIndex varIndex period : Z) : Z :=
  (startpos o + period * bytesperperiod o) + 2 * RECORDSIZE o + typeBase o t
  + itemIndex * varCount o t * RECORDSIZE o + varIndex * RECORDSIZE o.

(** The same without the item term for the system, whose values are
    addressed by the variable index alone. *)
Definition fetchOffset (o : SwmmExtract) (t itemIndex varIndex period : Z) : Z :=
  (startpos o + period * bytesperperiod o) + 2 * RECORDSIZE o + typeBase o t
  + (if t =? 4 then 0 else itemIndex * varCount o t * RECORDSIZE o)
  + varIndex * RECORDSIZE o.

(** The integers that a file stores in its first four bytes and in its
    last twenty-four. *)
Definition stored_magic1 (filename : list byte) : Z :=
  int_of_bytes (take 4 filename).

Definition closing_record (filename : list byte) : list Z :=
  int_of_bytes <$> chunks 6 4 (drop (length filename - 24) filename).

Definition stored_nperiods (filename : list byte) : Z := nth 3 (closing_record filename) 0.
Definition stored_errcode (filename : list byte) : Z := nth 4 (closing_record filename) 0.
Definition stored_magic2 (filename : list byte) : Z := nth 5 (closing_record filename) 0.

(** What a query can observe of the geometry and of the catalog of an
    object: every attribute but the file object and the type that
    [name_check] last resolved.  The variable-code table is reached through
    the reference [varcode]. *)
Definition geometry_and_names (o : SwmmExtract) :=
  (RECORDSIZE o, Namesstartpos o, offset0 o, startpos o, swmm_nperiods o,
   swmm_flowunits o, swmm_nsubcatch o, swmm_nnodes o, swmm_nlinks o, swmm_npolluts o,
   varcode o, itemlist o, names o, pollutant_codes o, propcode o, prop o, vars o,
   swmm_nsubcatchvars o, nnodevars o, nlinkvars o, nsystemvars o,
   startdate o, reportinterval o, bytesperperiod o).

(** The variable-code table of an object. *)
Definition varcode_table (s : state) : codetable := deref (varcode (self s)) (globals s).

(** The queries on an open object: the bodies of the commands. *)
Inductive query :=
  | Q_catalog (itemtype : pyval)
  | Q_listdetail (itemtype : pyval) (name : string)
  | Q_listvariables
  | Q_extract (labels : list label)
  | Q_extract_arr (labels : list label)
  | Q_fast_extract (granularity : Z) (labels : list label).

(** The state after a query, whether it returned or raised. *)
Definition after_query (q : query) (s : state) : state :=
  match q with
  | Q_catalog itemtype => snd (catalog_body itemtype s)
  | Q_listdetail itemtype name => snd (listdetail_body itemtype name s)
  | Q_listvariables => snd (listvariables_body s)
  | Q_extract labels => snd (extract_body labels s)
  | Q_extract_arr labels => snd (extract_arr_body labels s)
  | Q_fast_extract granularity labels => snd (fast_extract_body granularity labels s)
  end.

Definition after_queries (qs : list query) (s : state) : state :=
  foldl (fun s q => after_query q s) s qs.

(** The session that a command works on: the object built from the file
    and the module-level dicts. *)
Definition session (obj : SwmmExtract) (g : module_state) : state :=
  {| self := obj; globals := g |}.

Definition Label (t name : string) (v : Z) : label :=
  {| l_itemtype := t; l_name := name; l_variableindex := v |}.


(** [raises_only P c]: whatever the state, an exception raised by [c]
    satisfies [P]. *)
Definition raises_only {S A} (P : exn -> Prop) (c : M S A) : Prop :=
  forall s e s', c s = (Raise e, s') -> P e.

(** The same for a pure step. *)
Definition fails_only {A} (P : exn -> Prop) (r : result A) : Prop :=
  forall e, r = Raise e -> P e.

(** The exceptions of the library calls in [SwmmExtract.__init__]:
    [struct.unpack] raises [struct.error], a dict lookup raises
    [KeyError], a seek raises [OSError] for a negative position and a
    [ValueError] for an offset that is no [off_t], a read raises a
    [ValueError] for a length below -1 and an [OverflowError] for a length
    that is no [Py_ssize_t], [int] of a float raises the [ValueError] of
    NaN or an [OverflowError], a date out of range is an [OverflowError]. *)
Definition library_error (e : exn) : Prop :=
  e = struct_error \/ e = KeyError \/ e = OSError \/ e = OverflowError
  \/ e = ValueError Float_NaN_to_integer
  \/ e = ValueError Cannot_fit_offset
  \/ e = ValueError Read_length_negative.

(** The exceptions of [get_swmm_results] once the type has passed its
    first check: the two checks of [name_check], the errors of a seek and
    of a read, and a read that returns fewer bytes than [struct.unpack]
    needs. *)
Definition access_error (e : exn) : Prop :=
  e = ValueError Type_argument_incorrect \/
  e = ValueError Name_not_found \/
  e = OSError \/ e = struct_error \/
  e = ValueError Cannot_fit_offset \/
  e = ValueError Read_length_negative \/
  e = OverflowError.

(** The two exceptions that are a [LookupError] in Python. *)
Definition lookup_error (e : exn) : Prop :=
  e = KeyError \/ e = IndexError.

(** A file is rejected: [SwmmExtract.__init__] raises one of its format
    errors. *)
Definition rejected (filename : list byte) (g : module_state) : Prop :=
  exists e, SwmmExtract__init__ filename g = Raise e /\ is_format_error e = true.

(** The position of the last read of a file object. *)
Definition last_read (f : file_obj) : option Z :=
  match last (f_log f) with
  | Some (io_read pos _) => Some pos
  | _ => None
  end.

(** [unchanged s s']: the state [s'] shows the geometry and the names of
    [s], and the module-level dicts of [s] if the file of [s] has no
    pollutant. *)
Definition unchanged (s s' : state) : Prop :=
  geometry_and_names (self s') = geometry_and_names (self s)
  /\ (names (self s) !! 3 = Some [] -> globals s' = globals s).

(** A computation is stable if every run of it, returning or raising,
    leaves the state [unchanged]. *)
Definition stable {A} (c : M state A) : Prop :=
  forall s, unchanged s (snd (c s)).

(** * Theorems *)

(** ** Stepping through computations *)

Lemma bind_Ok {S A B} (c : M S A) (k : A -> M S B) s a s' :
  c s = (Ok a, s') -> bind c k s = k a s'.
Proof. intros H. unfold bind. rewrite H. reflexivity. Qed.

Lemma bind_Raise {S A B} (c : M S A) (k : A -> M S B) s e s' :
  c s = (Raise e, s') -> bind c k s = (Raise e, s').
Proof. intros H. unfold bind. rewrite H. reflexivity. Qed.

Lemma bind_inv_Ok {S A B} (c : M S A) (k : A -> M S B) s b s2 :
  bind c k s = (Ok b, s2) ->
  exists a s1, c s = (Ok a, s1) /\ k a s1 = (Ok b, s2).
Proof.
  unfold bind. destruct (c s) as [[a|e] s1]; [eauto | discriminate].
Qed.

(** ** C8: the rounding of the seconds *)

(** C8.  In [extract], the correction of the decoded integer seconds [s]
    gives [s - 1] when [s mod 10 = 1], [s + 1] when [s mod 10 = 9], and [s]
    for every other residue; so it changes [s] exactly when [s mod 10] is 1
    or 9.  (Python's [%] with a positive modulus is [Z.modulo].) *)
Theorem seconds_correction_exact (s : Z) :
  seconds_correction s =
    (if s mod 10 =? 1 then s - 1 else if s mod 10 =? 9 then s + 1 else s)
  /\ (seconds_correction s <> s <-> s mod 10 = 1 \/ s mod 10 = 9).
Proof.
  unfold seconds_correction.
  destruct (Z.eqb_spec (s mod 10) 0) as [E0|E0];
  destruct (Z.eqb_spec (s mod 10) 1) as [E1|E1];
  destruct (Z.eqb_spec (s mod 10) 9) as [E9|E9]; simpl; split; try lia.
Qed.

(** ** Which exceptions a computation can raise *)

Section RaisesOnly.
Context {S : Type} (P : exn -> Prop).

Lemma raises_only_ret {A} (a : A) : raises_only (S:=S) P (ret a).
Proof. intros s e s' H. discriminate. Qed.

Lemma raises_only_gets {A} (f : S -> A) : raises_only P (gets f).
Proof. intros s e s' H. discriminate. Qed.

Lemma raises_only_modify (f : S -> S) : raises_only P (modify f).
Proof. intros s e s' H. discriminate. Qed.

Lemma raises_only_throw {A} e : P e -> raises_only (S:=S) (A:=A) P (throw e).
Proof. intros HP s e' s' [= <- _]. exact HP. Qed.

Lemma raises_only_lift {A} (r : result A) : fails_only P r -> raises_only (S:=S) P (lift r).
Proof. intros Hr s e s' [= -> _]. apply Hr. reflexivity. Qed.

Lemma raises_only_bind {A B} (c : M S A) (k : A -> M S B) :
  raises_only P c -> (forall a, raises_only P (k a)) -> raises_only P (bind c k).
Proof.
  intros Hc Hk s e s' H. unfold bind in H.
  destruct (c s) as [[a|e1] s1] eqn:E.
  - eapply Hk, H.
  - injection H as <- <-. eapply Hc, E.
Qed.

Lemma raises_only_map_M {A B} (f : A -> M S B) (l : list A) :
  (forall a, raises_only P (f a)) -> raises_only P (map_M f l).
Proof.
  intros Hf. induction l as [|x l IH]; simpl.
  - apply raises_only_ret.
  - apply raises_only_bind; [apply Hf | intros y].
    apply raises_only_bind; [apply IH | intros ys]. apply raises_only_ret.
Qed.

Lemma raises_only_repeat_M {A} (n : nat) (c : M S A) :
  raises_only P c -> raises_only P (repeat_M n c).
Proof.
  intros Hc. induction n as [|n IH]; simpl.
  - apply raises_only_ret.
  - apply raises_only_bind; [apply Hc | intros y].
    apply raises_only_bind; [apply IH | intros ys]. apply raises_only_ret.
Qed.
End RaisesOnly.

Lemma raises_only_zoom {S T A} (P : exn -> Prop) (get : S -> T) (set : T -> S -> S)
    (c : M T A) :
  raises_only P c -> raises_only P (zoom get set c).
Proof.
  intros Hc s e s' H. unfold zoom in H.
  destruct (c (get s)) as [r t] eqn:E. injection H as -> _. eapply Hc, E.
Qed.

Create HintDb raises.

Ltac fails_only_tac :=
  intros e He; unfold library_error;
  repeat match type of He with
         | context [if ?b then _ else _] => destruct b
         | context [match ?x with _ => _ end] => destruct x
         end;
  try discriminate; injection He as <-; auto 10.

Lemma unpack_i_fails bs : fails_only library_error (unpack_i bs).
Proof. unfold unpack_i. fails_only_tac. Qed.

Lemma unpack_ni_fails n bs : fails_only library_error (unpack_ni n bs).
Proof. unfold unpack_ni. fails_only_tac. Qed.

Lemma unpack_nf_fails n bs : fails_only library_error (unpack_nf n bs).
Proof. unfold unpack_nf. fails_only_tac. Qed.

Lemma unpack_i_nf_fails n bs : fails_only library_error (unpack_i_nf n bs).
Proof. unfold unpack_i_nf. fails_only_tac. Qed.

Lemma unpack_ns_fails n bs : fails_only library_error (unpack_ns n bs).
Proof. unfold unpack_ns. fails_only_tac. Qed.

Lemma unpack_d_fails bs : fails_only library_error (unpack_d bs).
Proof. unfold unpack_d. fails_only_tac. Qed.

Lemma unpack_f_fails bs : fails_only library_error (unpack_f bs).
Proof. unfold unpack_f. fails_only_tac. Qed.

Lemma py_int_fails x : fails_only library_error (py_int x).
Proof. unfold py_int. fails_only_tac. Qed.

Lemma getitem_fails {V} (d : gmap Z V) k : fails_only library_error (getitem d k).
Proof. unfold getitem. fails_only_tac. Qed.

Lemma lookup_all_fails {V} (d : gmap Z V) l : fails_only library_error (lookup_all d l).
Proof.
  induction l as [|i l IH]; simpl; intros e He; [discriminate|].
  destruct (d !! i); [|injection He as <-; unfold library_error; auto].
  destruct (lookup_all d l) eqn:E; [discriminate|].
  injection He as <-. apply IH. reflexivity.
Qed.

Lemma begindate_plus_us_fails us : fails_only library_error (begindate_plus_us us).
Proof. unfold begindate_plus_us. fails_only_tac. Qed.

(** A seek raises the [ValueError] of an offset that does not fit or the
    [OSError] of a negative position, and nothing else. *)
Lemma fp_seek_raises_cases offset whence f e f' :
  fp_seek offset whence f = (Raise e, f') ->
  e = ValueError Cannot_fit_offset \/ e = OSError.
Proof.
  unfold fp_seek. intros H.
  destruct (negb _); [injection H as <- _; auto|].
  destruct (_ <? 0); [injection H as <- _; auto | discriminate].
Qed.

(** A read raises the [OverflowError] of a length that does not fit or the
    [ValueError] of a length below -1, and nothing else. *)
Lemma fp_read_raises_cases n f e f' :
  fp_read n f = (Raise e, f') ->
  e = OverflowError \/ e = ValueError Read_length_negative.
Proof.
  unfold fp_read. intros H.
  destruct (negb _); [injection H as <- _; auto|].
  destruct (_ <? -1); [injection H as <- _; auto | discriminate].
Qed.

Lemma fp_seek_raises offset whence : raises_only library_error (fp_seek offset whence).
Proof.
  intros f e f' H. apply fp_seek_raises_cases in H.
  unfold library_error. destruct H as [-> | ->]; auto 10.
Qed.

Lemma fp_read_raises n : raises_only library_error (fp_read n).
Proof.
  intros f e f' H. apply fp_read_raises_cases in H.
  unfold library_error. destruct H as [-> | ->]; auto 10.
Qed.

#[local] Hint Resolve unpack_i_fails unpack_ni_fails unpack_nf_fails unpack_i_nf_fails
  unpack_ns_fails unpack_d_fails unpack_f_fails py_int_fails getitem_fails
  lookup_all_fails begindate_plus_us_fails fp_seek_raises fp_read_raises : raises.

(** Structural proof that a computation built from the steps above raises
    library errors only. *)
Ltac raises_tac :=
  repeat first
    [ apply raises_only_ret
    | apply raises_only_gets
    | apply raises_only_modify
    | apply raises_only_lift; solve [eauto with raises]
    | solve [eauto with raises]
    | apply raises_only_zoom
    | apply raises_only_repeat_M
    | apply raises_only_map_M; intros ?
    | apply raises_only_bind; [|intros ?]
    | progress cbv zeta ].

Lemma read_i_raises : raises_only library_error read_i.
Proof. unfold read_i. raises_tac. Qed.

Lemma read_ni_raises n : raises_only library_error (read_ni n).
Proof. unfold read_ni. raises_tac. Qed.

Lemma read_name_raises : raises_only library_error read_name.
Proof. unfold read_name. raises_tac. Qed.

#[local] Hint Resolve read_i_raises read_ni_raises read_name_raises : raises.

Lemma read_parameters_raises g a b c d :
  raises_only library_error (read_parameters g a b c d).
Proof.
  unfold read_parameters, read_props. raises_tac.
  apply raises_only_lift. intros e He.
  destruct (deref _ g !! 4); [discriminate|].
  injection He as <-. unfold library_error. auto 10.
Qed.

(** ** Inverting a successful run *)

Ltac inv_bind H :=
  let a := fresh "a" in
  let s := fresh "s" in
  let E := fresh "E" in
  apply bind_inv_Ok in H; destruct H as (a & s & E & H); cbv beta zeta in H.

Lemma read_parameters_bytesperperiod g a b c d f obj f' :
  read_parameters g a b c d f = (Ok obj, f') ->
  RECORDSIZE obj = 4 /\
  startpos obj = c /\ swmm_nperiods obj = d /\
  bytesperperiod obj = RECORDSIZE obj * (
    2 + swmm_nsubcatch obj * swmm_nsubcatchvars obj
      + swmm_nnodes obj * nnodevars obj
      + swmm_nlinks obj * nlinkvars obj
      + nsystemvars obj).
Proof.
  unfold read_parameters. cbv zeta. intros H.
  repeat inv_bind H.
  unfold ret in H. injection H as <- _. simpl. auto.
Qed.

Lemma init_inv filename g obj :
  SwmmExtract__init__ filename g = Ok obj ->
  exists a b c d f f',
    d <> 0 /\ read_parameters g a b c d f = (Ok obj, f').
Proof.
  unfold SwmmExtract__init__, SwmmExtract__init__body. cbv zeta. intros H.
  destruct (bind _ _ _) as [r f'] eqn:E. simpl in H. subst r.
  repeat inv_bind E.
  repeat match type of E with
         | (if ?b then _ else _) _ = _ => destruct b eqn:?; [discriminate|]
         end.
  do 6 eexists. split; [|exact E]. lia.
Qed.

(** ** C3: the bytes of a period *)

(** C3.  For every file that [SwmmExtract.__init__] accepts, the computed
    [bytesperperiod] is [RECORDSIZE * (2 + nsubcatch*nsubcatchvars +
    nnodes*nnodevars + nlinks*nlinkvars + nsystemvars)], that is
    [RECORDSIZE] times 2 plus the sum of [count * varCount] over the types
    in their fixed order, the system counting as one object; and
    [RECORDSIZE] is 4. *)
Theorem bytesperperiod_invariant (filename : list byte) (g : module_state)
    (obj : SwmmExtract) :
  SwmmExtract__init__ filename g = Ok obj ->
  RECORDSIZE obj = 4 /\
  bytesperperiod obj = RECORDSIZE obj * (
    2 + swmm_nsubcatch obj * swmm_nsubcatchvars obj
      + swmm_nnodes obj * nnodevars obj
      + swmm_nlinks obj * nlinkvars obj
      + nsystemvars obj) /\
  bytesperperiod obj = RECORDSIZE obj * (
    2 + sumZ ((fun t => count obj t * varCount obj t) <$> type_order)).
Proof.
  intros H. apply init_inv in H as (a & b & c & d & f & f' & _ & H).
  apply read_parameters_bytesperperiod in H as (HR & _ & _ & HB).
  split; [exact HR|]. split; [exact HB|].
  rewrite HB. unfold sumZ, type_order, count, varCount. simpl. lia.
Qed.

Lemma bytesperperiod_invariant_witness :
  exists obj, SwmmExtract__init__ scenario_out module_loaded = Ok obj /\
    bytesperperiod obj = 52 /\
    bytesperperiod obj = RECORDSIZE obj * (
      2 + sumZ ((fun t => count obj t * varCount obj t) <$> type_order)).
Proof.
  destruct (SwmmExtract__init__ scenario_out module_loaded) as [obj|e] eqn:E;
    [|vm_compute in E; discriminate].
  exists obj. split; [reflexivity|].
  pose proof (bytesperperiod_invariant scenario_out module_loaded obj E) as (_ & _ & H).
  split; [|exact H].
  vm_compute in E. injection E as <-. reflexivity.
Defined.

(** ** The single-value fetch *)

Ltac elem_cases H :=
  repeat (apply elem_of_cons in H as [H|H]); [..| apply elem_of_nil in H; destruct H].

Lemma type_check_int t st :
  t ∈ [0; 1; 2; 3; 4] -> type_check (PInt t) st = (Ok (PInt t), st).
Proof.
  intros Ht. unfold type_check.
  destruct (decide _) as [|n]; [reflexivity|].
  exfalso. apply n. apply list_elem_of_fmap. eauto.
Qed.

Lemma name_check_int t name st l idx :
  t ∈ [0; 1; 2; 3; 4] ->
  names (self st) !! t = Some l -> list_index name l = Some idx ->
  name_check (PInt t) name st = (Ok (name, idx), set_itemtype (PInt t) st).
Proof.
  intros Ht Hl Hi. unfold name_check.
  erewrite bind_Ok by (apply type_check_int; exact Ht).
  unfold bind, modify, attr, gets. simpl. rewrite Hl, Hi. reflexivity.
Qed.

Lemma fp_seek_abs offset f :
  0 <= offset <= f_size f ->
  fp_seek offset 0 f = (Ok tt, {| f_bytes := f_bytes f; f_pos := offset; f_log := f_log f |}).
Proof.
  intros H. unfold fp_seek. change (0 =? 2) with false. cbv iota zeta.
  destruct (Z.leb_spec 0 offset); [|lia].
  destruct (Z.leb_spec offset (f_size f)); [|lia].
  rewrite orb_true_r. cbn [negb].
  destruct (Z.ltb_spec offset 0); [lia | reflexivity].
Qed.

Lemma fp_read_in n f :
  0 <= n < 2 ^ 63 -> 0 <= f_pos f -> f_pos f + n <= f_size f ->
  fp_read n f =
    (Ok (take (Z.to_nat n) (drop (Z.to_nat (f_pos f)) (f_bytes f))),
     {| f_bytes := f_bytes f; f_pos := f_pos f + n;
        f_log := f_log f ++ [io_read (f_pos f) n] |}).
Proof.
  intros Hn Hp Hs. unfold fp_read, fits_int64, f_size in *.
  destruct (Z.leb_spec (- 2 ^ 63) n); [|lia].
  destruct (Z.ltb_spec n (2 ^ 63)); [|lia]. cbn [andb negb].
  destruct (Z.ltb_spec n (-1)); [lia|].
  destruct (Z.eqb_spec n (-1)); [lia|].
  rewrite length_take, length_drop. do 3 f_equal. lia.
Qed.

Lemma length_read n pos (bs : list byte) :
  0 <= n -> 0 <= pos -> pos + n <= Z.of_nat (length bs) ->
  Z.of_nat (length (take (Z.to_nat n) (drop (Z.to_nat pos) bs))) = n.
Proof. intros. rewrite length_take, length_drop. lia. Qed.

Lemma self_fp_run {A} (c : M file_obj A) s r f' :
  c (fp (self s)) = (r, f') -> self_fp c s = (r, set_fp f' s).
Proof. intros H. unfold self_fp, zoom. rewrite H. reflexivity. Qed.

Ltac fields :=
  cbn [set_itemtype set_fp self globals RECORDSIZE fp startpos bytesperperiod
       swmm_nsubcatchvars swmm_nsubcatch swmm_nnodes nnodevars swmm_nlinks nlinkvars
       nsystemvars names itemtype f_bytes f_pos f_log] in *.

Lemma fetchOffset_unfold o t idx v p :
  t ∈ type_order ->
  RECORDSIZE o = 4 ->
  fetchOffset o t idx v p =
    startpos o + p * bytesperperiod o + 8 +
    (if t =? 0 then 4 * (idx * swmm_nsubcatchvars o)
     else if t =? 1 then 4 * (swmm_nsubcatch o * swmm_nsubcatchvars o + idx * nnodevars o)
     else if t =? 2 then 4 * (swmm_nsubcatch o * swmm_nsubcatchvars o
                              + swmm_nnodes o * nnodevars o + idx * nlinkvars o)
     else 4 * (swmm_nsubcatch o * swmm_nsubcatchvars o
               + swmm_nnodes o * nnodevars o + swmm_nlinks o * nlinkvars o))
    + 4 * v.
Proof.
  intros Ht HR. unfold fetchOffset, typeBase, varCount. rewrite HR.
  unfold type_order in *.
  destruct (Z.eqb_spec t 0) as [->|]; [cbn -[Z.mul Z.add]; lia|].
  destruct (Z.eqb_spec t 1) as [->|]; [cbn -[Z.mul Z.add]; lia|].
  destruct (Z.eqb_spec t 2) as [->|]; [cbn -[Z.mul Z.add]; lia|].
  destruct (Z.eqb_spec t 4) as [->|]; [cbn -[Z.mul Z.add]; lia|].
  exfalso. elem_cases Ht; congruence.
Qed.

Lemma get_swmm_results_reads st t name variableindex period l idx :
  t ∈ type_order ->
  names (self st) !! t = Some l -> list_index name l = Some idx ->
  RECORDSIZE (self st) = 4 ->
  let o := self st in
  let date_offset := startpos o + period * bytesperperiod o in
  let offset := fetchOffset o t idx variableindex period in
  0 <= date_offset -> date_offset + 8 <= f_size (fp o) ->
  0 <= offset -> offset + 4 <= f_size (fp o) ->
  get_swmm_results (PInt t) name variableindex period st =
    (Ok (double_of_bytes (take 8 (drop (Z.to_nat date_offset) (f_bytes (fp o)))),
         float_of_bytes (take 4 (drop (Z.to_nat offset) (f_bytes (fp o))))),
     set_fp {| f_bytes := f_bytes (fp o); f_pos := offset + 4;
               f_log := f_log (fp o) ++ [io_read date_offset 8; io_read offset 4] |}
            (set_itemtype (PInt t) st)).
Proof.
  intros Ht Hl Hi HR o date_offset offset Hd0 Hd1 Ho0 Ho1.
  assert (Ht5 : t ∈ [0; 1; 2; 3; 4]).
  { unfold type_order in Ht. elem_cases Ht; subst; repeat constructor. }
  unfold get_swmm_results.
  destruct (decide _) as [n|_].
  { exfalso. apply n. apply list_elem_of_fmap. eauto. }
  erewrite bind_Ok by (eapply name_check_int; eauto).
  cbv beta iota.
  unfold bind at 1. unfold gets at 1. cbv beta iota zeta. fields.
  subst o. fields. rewrite HR. fold date_offset. change (2 * 4) with 8.
  erewrite bind_Ok by (apply self_fp_run, fp_seek_abs; fields; lia).
  erewrite bind_Ok; cycle 1.
  { apply self_fp_run. fields. apply fp_read_in; fields; unfold f_size in *; fields; lia. }
  fields.
  erewrite bind_Ok; cycle 1.
  { unfold lift, unpack_d. rewrite length_read by (unfold f_size in *; lia). reflexivity. }
  match goal with |- context [self_fp (fp_seek ?off _)] =>
    assert (Hoff : off = offset) end.
  { subst offset. rewrite fetchOffset_unfold by assumption. fold date_offset.
    unfold type_order in Ht.
    repeat match goal with |- context [decide (PInt ?a = PInt ?k)] =>
      destruct (decide (PInt a = PInt k)) as [[= ?]|]; subst end;
    cbn -[Z.mul Z.add]; try lia.
    exfalso. elem_cases Ht; congruence. }
  rewrite Hoff. clear Hoff.
  erewrite bind_Ok by (apply self_fp_run, fp_seek_abs; fields; unfold f_size in *; fields; lia).
  erewrite bind_Ok; cycle 1.
  { apply self_fp_run. fields. apply fp_read_in; fields; unfold f_size in *; fields; lia. }
  fields.
  erewrite bind_Ok; cycle 1.
  { unfold lift, unpack_f. rewrite length_read by (unfold f_size in *; lia). reflexivity. }
  unfold ret. f_equal. unfold set_fp. fields.
  rewrite <- app_assoc. reflexivity.
Qed.

Lemma raises_only_weaken {S A} (P Q : exn -> Prop) (c : M S A) :
  (forall e, P e -> Q e) -> raises_only P c -> raises_only Q c.
Proof. intros HPQ Hc s e s' H. eapply HPQ, Hc, H. Qed.

Lemma type_check_raises itemtype :
  raises_only (fun e => e = ValueError Type_argument_incorrect) (type_check itemtype).
Proof.
  unfold type_check. destruct (decide _); [apply raises_only_ret|].
  apply raises_only_bind; [apply raises_only_gets | intros l].
  destruct (list_index _ _); [apply raises_only_ret | apply raises_only_throw; reflexivity].
Qed.

Lemma name_check_raises itemtype itemname :
  raises_only (fun e => e = ValueError Type_argument_incorrect \/ e = ValueError Name_not_found)
    (name_check itemtype itemname).
Proof.
  unfold name_check.
  apply raises_only_bind.
  { eapply raises_only_weaken; [|apply type_check_raises]. auto. }
  intros t. apply raises_only_bind; [apply raises_only_modify | intros _].
  apply raises_only_bind; [apply raises_only_gets | intros nm].
  destruct (getitem nm t) as [l|e]; [|apply raises_only_throw; auto].
  destruct (list_index itemname l); [apply raises_only_ret | apply raises_only_throw; auto].
Qed.

Lemma get_swmm_results_accepted_raises itemtype name variableindex period :
  itemtype ∈ PInt <$> [0; 1; 2; 4] ->
  raises_only access_error (get_swmm_results itemtype name variableindex period).
Proof.
  intros Hin. unfold get_swmm_results.
  destruct (decide _) as [Hn|_]; [contradiction|].
  apply raises_only_bind.
  { eapply raises_only_weaken; [|apply name_check_raises].
    unfold access_error. intros e [->| ->]; auto. }
  intros [n' itemindex].
  apply raises_only_bind; [apply raises_only_gets | intros o]. cbv zeta.
  assert (Hseek : forall off, raises_only access_error (self_fp (fp_seek off 0))).
  { intros off. apply raises_only_zoom. intros f e f' H.
    apply fp_seek_raises_cases in H.
    unfold access_error. destruct H as [-> | ->]; auto 10. }
  assert (Hread : forall k, raises_only access_error (self_fp (fp_read k))).
  { intros k. apply raises_only_zoom. intros f e f' H.
    apply fp_read_raises_cases in H.
    unfold access_error. destruct H as [-> | ->]; auto 10. }
  apply raises_only_bind; [apply Hseek | intros _].
  apply raises_only_bind; [apply Hread | intros bs].
  apply raises_only_bind.
  { apply raises_only_lift. intros e He. unfold unpack_d in He.
    destruct (_ =? 8); [discriminate|]. injection He as <-. unfold access_error. auto. }
  intros date.
  apply raises_only_bind; [apply Hseek | intros _].
  apply raises_only_bind; [apply Hread | intros bs'].
  apply raises_only_bind; [|intros v; apply raises_only_ret].
  apply raises_only_lift. intros e He. unfold unpack_f in He.
  destruct (_ =? 4); [discriminate|]. injection He as <-. unfold access_error. auto.
Qed.

Lemma access_error_cases e :
  access_error e -> e <> ValueError Type_must_be_one_of_0_1_2_4 /\ ~ lookup_error e.
Proof.
  unfold access_error, lookup_error.
  intros [->|[->|[->|[->|[->|[->| ->]]]]]]; (split; [discriminate|]);
    intros [H|H]; discriminate.
Qed.

(** No run of [get_swmm_results] ends in a [KeyError] or an [IndexError]. *)
Lemma get_swmm_results_raises itemtype name variableindex period :
  raises_only (fun e => ~ lookup_error e)
    (get_swmm_results itemtype name variableindex period).
Proof.
  destruct (decide (itemtype ∈ PInt <$> [0; 1; 2; 4])) as [Hin|Hn].
  - eapply raises_only_weaken; [|apply get_swmm_results_accepted_raises, Hin].
    intros e He. apply access_error_cases, He.
  - unfold get_swmm_results.
    destruct (decide _) as [_|Hin]; [|contradiction].
    apply raises_only_throw. intros [H|H]; discriminate.
Qed.

(** ** C10: the pollutant type is refused by the fetch *)

(** C10.  For every name, variable index and period, [get_swmm_results]
    called with the type 3 (pollutant) raises its [ValueError] and leaves
    the state as it was: no type or name has been resolved ([itemtype] is
    not set) and the file has not been accessed.  The types that pass this
    first check are exactly 0, 1, 2 and 4: for every value given as type,
    the fetch raises this error if and only if the value is not one of
    them, and then the state is untouched. *)
Theorem get_swmm_results_type_gate (name : string) (variableindex period : Z)
    (st : state) :
  get_swmm_results (PInt 3) name variableindex period st
    = (Raise (ValueError Type_must_be_one_of_0_1_2_4), st)
  /\ forall itemtype : pyval,
       (fst (get_swmm_results itemtype name variableindex period st)
          = Raise (ValueError Type_must_be_one_of_0_1_2_4)
        <-> itemtype ∉ PInt <$> [0; 1; 2; 4])
       /\ (itemtype ∉ PInt <$> [0; 1; 2; 4] ->
           snd (get_swmm_results itemtype name variableindex period st) = st).
Proof.
  split; [reflexivity|].
  intros itemtype. split; [split|].
  - intros H Hin.
    destruct (get_swmm_results itemtype name variableindex period st) as [r st'] eqn:E.
    simpl in H. subst r.
    apply get_swmm_results_accepted_raises in E; [|exact Hin].
    apply access_error_cases in E. destruct E as [E _]. contradiction.
  - intros Hn. unfold get_swmm_results.
    destruct (decide _) as [_|Hin]; [reflexivity | contradiction].
  - intros Hn. unfold get_swmm_results.
    destruct (decide _) as [_|Hin]; [reflexivity | contradiction].
Qed.

(** ** C2: the offset of the value that the fetch reads *)

Lemma last_read_snoc f p n ops :
  f_log f = ops ++ [io_read p n] -> last_read f = Some p.
Proof. intros H. unfold last_read. rewrite H, last_snoc. reflexivity. Qed.

(** C2, as the code has it.  For a type of the fixed order, a name that the
    catalog resolves to [idx], any variable index and period, the fetch
    reads the 8 bytes of the date at [startpos + period*bytesperperiod] and
    then 4 bytes at
    [startpos + period*bytesperperiod + 2*RECORDSIZE + typeBase + itemTerm
    + variableindex*RECORDSIZE], where [typeBase] is [RECORDSIZE] times the
    sum of [count*varCount] over the preceding types and [itemTerm] is
    [idx*varCount*RECORDSIZE] for subcatchments, nodes and links and 0 for
    the system; it returns the value stored there.  For the three object
    types this is the offset [valueOffset] of the specification.  In a
    geometry with 1 subcatchment (2 variables), 2 nodes (3 variables each)
    and 1 link (2 variables), the offset for the node of index 1, variable 2
    and period 2 is [startpos + 2*bytesperperiod + 2*RECORDSIZE +
    RECORDSIZE*2 + RECORDSIZE*(1*3) + RECORDSIZE*2].  The reads are assumed
    to lie inside the file. *)
Theorem fetch_offset_by_type (st : state) (t : Z) (name : string)
    (variableindex period : Z) (l : list string) (idx : Z) :
  t ∈ type_order ->
  names (self st) !! t = Some l -> list_index name l = Some idx ->
  RECORDSIZE (self st) = 4 ->
  0 <= startpos (self st) + period * bytesperperiod (self st) ->
  startpos (self st) + period * bytesperperiod (self st) + 8 <= f_size (fp (self st)) ->
  0 <= fetchOffset (self st) t idx variableindex period ->
  fetchOffset (self st) t idx variableindex period + 4 <= f_size (fp (self st)) ->
  let o := self st in
  let offset := fetchOffset o t idx variableindex period in
  let r := get_swmm_results (PInt t) name variableindex period st in
  last_read (fp (self (snd r))) = Some offset
  /\ f_log (fp (self (snd r))) =
       f_log (fp o) ++ [io_read (startpos o + period * bytesperperiod o) 8; io_read offset 4]
  /\ (exists date, fst r =
        Ok (date, float_of_bytes (take 4 (drop (Z.to_nat offset) (f_bytes (fp o))))))
  /\ (t <> 4 -> offset = valueOffset o t idx variableindex period)
  /\ (swmm_nsubcatch o = 1 -> swmm_nsubcatchvars o = 2 ->
      swmm_nnodes o = 2 -> nnodevars o = 3 ->
      swmm_nlinks o = 1 -> nlinkvars o = 2 ->
      t = 1 -> idx = 1 -> variableindex = 2 -> period = 2 ->
      offset = startpos o + 2 * bytesperperiod o + 2 * RECORDSIZE o
               + RECORDSIZE o * 2 + RECORDSIZE o * (1 * 3) + RECORDSIZE o * 2).
Proof.
  intros Ht Hl Hi HR Hd0 Hd1 Ho0 Ho1 o offset r.
  pose proof (get_swmm_results_reads st t name variableindex period l idx
                Ht Hl Hi HR Hd0 Hd1 Ho0 Ho1) as E.
  subst r. rewrite E. cbn [fst snd]. unfold set_fp. fields.
  split; [|split; [|split; [|split]]].
  - eapply (last_read_snoc _ _ 4 (f_log (fp (self st)) ++ [io_read _ 8])).
    cbn [f_log]. rewrite <- app_assoc. reflexivity.
  - reflexivity.
  - eexists. reflexivity.
  - intros Hn. subst offset. unfold fetchOffset, valueOffset.
    destruct (Z.eqb_spec t 4); [contradiction | reflexivity].
  - intros H1 H2 H3 H4 H5 H6 -> -> -> ->. subst offset o.
    rewrite fetchOffset_unfold by assumption.
    rewrite HR, H1, H2, H4. cbn -[Z.mul Z.add]. lia.
Qed.

Lemma fetch_offset_by_type_witness :
  exists obj, SwmmExtract__init__ scenario_out module_loaded = Ok obj /\
    let st := session obj module_loaded in
    let r := get_swmm_results (PInt 1) "N2" 2 2 st in
    last_read (fp (self (snd r))) = Some (fetchOffset obj 1 1 2 2)
    /\ fetchOffset obj 1 1 2 2 = 200 + 2 * 52 + 2 * 4 + 4 * 2 + 4 * (1 * 3) + 4 * 2.
Proof.
  destruct (SwmmExtract__init__ scenario_out module_loaded) as [obj|e] eqn:E;
    [|vm_compute in E; discriminate].
  exists obj. split; [reflexivity|].
  vm_compute in E. injection E as <-.
  split; [|reflexivity].
  refine (proj1 (fetch_offset_by_type _ 1 "N2" 2 2 ["N1"; "N2"]%string 1 _ _ _ _ _ _ _ _)).
  - unfold type_order. repeat constructor.
  - reflexivity.
  - reflexivity.
  - reflexivity.
  - vm_compute. discriminate.
  - vm_compute. discriminate.
  - vm_compute. discriminate.
  - vm_compute. discriminate.
Defined.

(** C2, as stated, fails for the system: in the file with two system
    variables, the fetch of (system, "Rainfall", variable 0, period 0)
    resolves the name to index 1 and reads at offset 291, while the formula
    with the item term [idx*varCount*RECORDSIZE] gives 299. *)
Lemma valueOffset_fails_for_system :
  exists obj, SwmmExtract__init__ polluted_out module_loaded = Ok obj /\
    names obj !! 4 ≫= list_index "Rainfall"%string = Some 1 /\
    let r := get_swmm_results (PInt 4) "Rainfall" 0 0 (session obj module_loaded) in
    last_read (fp (self (snd r))) = Some 291 /\
    valueOffset obj 4 1 0 0 = 299 /\
    ~ last_read (fp (self (snd r))) = Some (valueOffset obj 4 1 0 0).
Proof.
  destruct (SwmmExtract__init__ polluted_out module_loaded) as [obj|e] eqn:E;
    [|vm_compute in E; discriminate].
  exists obj. split; [reflexivity|].
  vm_compute in E. injection E as <-.
  split; [reflexivity|]. split; [vm_compute; reflexivity|].
  split; [reflexivity|]. vm_compute. discriminate.
Qed.

(** ** C6: the variable index is not validated *)

Lemma fetchOffset_next_item o t idx v p :
  t <> 4 ->
  fetchOffset o t idx v p = fetchOffset o t (idx + 1) (v - varCount o t) p.
Proof.
  intros Hn. unfold fetchOffset.
  destruct (Z.eqb_spec t 4); [contradiction | lia].
Qed.

(** C6, as the code has it.  The fetch does not compare the variable index
    with the declared number of variables.  For a type of the fixed order,
    a name of the catalog and a variable index at or beyond the declared
    count, it reads the date and then 4 bytes at the offset computed from
    the index, and returns their value, provided these bytes lie inside the
    file; for subcatchments, nodes and links they are the bytes of variable
    [variableindex - varCount] of the next item.  Whatever its arguments
    and the state it runs in, the fetch never raises a lookup error (a
    [KeyError] or an [IndexError]). *)
Theorem fetch_beyond_declared_variables (st : state) (t : Z) (name : string)
    (variableindex period : Z) (l : list string) (idx : Z) :
  t ∈ type_order ->
  names (self st) !! t = Some l -> list_index name l = Some idx ->
  RECORDSIZE (self st) = 4 ->
  varCount (self st) t <= variableindex ->
  0 <= startpos (self st) + period * bytesperperiod (self st) ->
  startpos (self st) + period * bytesperperiod (self st) + 8 <= f_size (fp (self st)) ->
  0 <= fetchOffset (self st) t idx variableindex period ->
  fetchOffset (self st) t idx variableindex period + 4 <= f_size (fp (self st)) ->
  let o := self st in
  let offset := fetchOffset o t idx variableindex period in
  let r := get_swmm_results (PInt t) name variableindex period st in
  (exists date, fst r =
     Ok (date, float_of_bytes (take 4 (drop (Z.to_nat offset) (f_bytes (fp o))))))
  /\ f_log (fp (self (snd r))) =
       f_log (fp o) ++ [io_read (startpos o + period * bytesperperiod o) 8; io_read offset 4]
  /\ (t <> 4 ->
      offset = fetchOffset o t (idx + 1) (variableindex - varCount o t) period)
  /\ (forall itemtype' name' variableindex' period',
        raises_only (fun e => ~ lookup_error e)
          (get_swmm_results itemtype' name' variableindex' period')).
Proof.
  intros Ht Hl Hi HR Hv Hd0 Hd1 Ho0 Ho1 o offset r.
  pose proof (get_swmm_results_reads st t name variableindex period l idx
                Ht Hl Hi HR Hd0 Hd1 Ho0 Ho1) as E.
  subst r. rewrite E. cbn [fst snd]. unfold set_fp. fields.
  split; [eexists; reflexivity|]. split; [reflexivity|].
  split; [apply fetchOffset_next_item|].
  intros. apply get_swmm_results_raises.
Qed.

Lemma fetch_beyond_declared_variables_witness :
  exists obj, SwmmExtract__init__ scenario_out module_loaded = Ok obj /\
    varCount obj 1 <= 3 /\
    let r := get_swmm_results (PInt 1) "N2" 3 2 (session obj module_loaded) in
    exists date, fst r =
      Ok (date, float_of_bytes (take 4 (drop (Z.to_nat (fetchOffset obj 1 1 3 2))
                                             (f_bytes (fp obj))))).
Proof.
  destruct (SwmmExtract__init__ scenario_out module_loaded) as [obj|e] eqn:E;
    [|vm_compute in E; discriminate].
  exists obj. split; [reflexivity|].
  vm_compute in E. injection E as <-.
  split; [vm_compute; discriminate|].
  refine (proj1 (fetch_beyond_declared_variables _ 1 "N2" 3 2 ["N1"; "N2"]%string 1
                   _ _ _ _ _ _ _ _ _)).
  - unfold type_order. repeat constructor.
  - reflexivity.
  - reflexivity.
  - reflexivity.
  - vm_compute. discriminate.
  - vm_compute. discriminate.
  - vm_compute. discriminate.
  - vm_compute. discriminate.
  - vm_compute. discriminate.
Defined.

(** C6, as stated, fails: in the scenario file the nodes have 3 variables,
    and the fetch of variable 3 of node "N2" in period 2 raises nothing: it
    reads the file twice and returns a value (the first value of the link
    of that period, 309); [extract] returns the series of these values. *)
Lemma variable_index_not_validated :
  exists obj, SwmmExtract__init__ scenario_out module_loaded = Ok obj /\
    nnodevars obj = 3 /\
    let st := session obj module_loaded in
    let r := get_swmm_results (PInt 1) "N2" 3 2 st in
    (exists date, fst r = Ok (date, float_of_int 309)) /\
    f_log (fp (self (snd r))) = f_log (fp obj) ++ [io_read 304 8; io_read 344 4] /\
    ~ (exists e, fst r = Raise e /\ snd r = st) /\
    exists s, fst (extract scenario_out [Label "node" "N2" 3] module_loaded) = Ok [s]
              /\ s_values s = float_of_int <$> [109; 209; 309].
Proof.
  destruct (SwmmExtract__init__ scenario_out module_loaded) as [obj|e] eqn:E;
    [|vm_compute in E; discriminate].
  exists obj. split; [reflexivity|].
  vm_compute in E. injection E as <-.
  split; [reflexivity|]. split; [eexists; vm_compute; reflexivity|].
  split; [vm_compute; reflexivity|].
  split; [intros (e & He & _); vm_compute in He; discriminate|].
  eexists. split; [vm_compute; reflexivity|]. reflexivity.
Qed.

(** ** C7: which files are rejected *)

(** The first half of [SwmmExtract.__init__] on a file of at least 24
    bytes: the checks are made on the stored integers. *)
Lemma init_checks filename g :
  (24 <= length filename)%nat ->
  SwmmExtract__init__body g (open_rb filename) =
    let f := {| f_bytes := filename; f_pos := 4;
                f_log := [io_read (Z.of_nat (length filename) - 24) 24; io_read 0 4] |} in
    if negb (stored_magic1 filename =? magic_number)
    then (Raise (ValueError First_magic_number_incorrect), f)
    else if negb (stored_magic2 filename =? magic_number)
    then (Raise (ValueError Second_magic_number_incorrect), f)
    else if negb (stored_errcode filename =? 0)
    then (Raise (ValueError Error_code_in_output_file), f)
    else if stored_nperiods filename =? 0
    then (Raise (ValueError Zero_time_periods), f)
    else read_parameters g (nth 0 (closing_record filename) 0)
           (nth 1 (closing_record filename) 0) (nth 2 (closing_record filename) 0)
           (stored_nperiods filename) f.
Proof.
  intros Hlen. unfold SwmmExtract__init__body. cbv zeta.
  erewrite bind_Ok; cycle 1.
  { unfold fp_seek, open_rb, f_size. cbn [f_bytes f_pos f_log].
    change (2 =? 2) with true. change (fits_int64 (-6 * 4)) with true.
    cbn [orb negb]. cbv iota zeta.
    destruct (Z.ltb_spec (Z.of_nat (length filename) + -6 * 4) 0); [lia | reflexivity]. }
  erewrite bind_Ok; cycle 1.
  { unfold read_ni. erewrite bind_Ok; cycle 1.
    { apply fp_read_in; unfold f_size; cbn [f_bytes f_pos]; lia. }
    unfold lift, unpack_ni. cbn [f_bytes f_pos f_log].
    rewrite length_read by lia. reflexivity. }
  cbn [f_bytes f_pos f_log].
  erewrite bind_Ok by (apply fp_seek_abs; unfold f_size; cbn [f_bytes]; lia).
  erewrite bind_Ok; cycle 1.
  { unfold read_i. erewrite bind_Ok; cycle 1.
    { apply fp_read_in; unfold f_size; cbn [f_bytes f_pos]; lia. }
    unfold lift, unpack_i. cbn [f_bytes f_pos f_log].
    rewrite length_read by lia. reflexivity. }
  cbn [f_bytes f_pos f_log].
  assert (Hc : int_of_bytes <$>
               chunks (Z.to_nat 6) 4
                 (take (Z.to_nat (6 * 4))
                    (drop (Z.to_nat (Z.of_nat (length filename) + -6 * 4)) filename))
               = closing_record filename).
  { unfold closing_record.
    replace (Z.to_nat (Z.of_nat (length filename) + -6 * 4)) with (length filename - 24)%nat by lia.
    rewrite take_ge by (rewrite length_drop; lia). reflexivity. }
  rewrite Hc.
  change (take (Z.to_nat 4) (drop (Z.to_nat 0) filename)) with (take 4 filename).
  fold (stored_magic1 filename). fold (stored_magic2 filename).
  fold (stored_errcode filename). fold (stored_nperiods filename).
  replace (Z.of_nat (length filename) + -6 * 4) with (Z.of_nat (length filename) - 24) by lia.
  change (0 + 4) with 4. change (6 * 4) with 24. cbv zeta.
  destruct (stored_magic1 filename =? magic_number); [|reflexivity].
  destruct (stored_magic2 filename =? magic_number); [|reflexivity].
  destruct (stored_errcode filename =? 0); [|reflexivity].
  destruct (stored_nperiods filename =? 0); reflexivity.
Qed.

(** C7, as the code has it.  [SwmmExtract.__init__] raises one of its
    format errors if and only if the file holds the 24 bytes of a closing
    record and the magic number at its start differs from 516114522, or
    the magic number of the closing record differs from it, or the stored
    error code is not 0, or the stored period count is 0.  A negative
    period count is not rejected.  In every other case the construction
    proceeds: if the file holds a closing record and passes the four
    checks, the result of [SwmmExtract.__init__] is that of reading the
    parameters, from position 4 on, with the four positions and counts of
    the closing record; a file shorter than a closing record fails at the
    first seek, with an [OSError]. *)
Theorem rejected_iff (filename : list byte) (g : module_state) :
  (rejected filename g <->
     (24 <= length filename)%nat /\
     (stored_magic1 filename <> magic_number \/
      stored_magic2 filename <> magic_number \/
      stored_errcode filename <> 0 \/
      stored_nperiods filename = 0))
  /\ ((24 <= length filename)%nat ->
      stored_magic1 filename = magic_number ->
      stored_magic2 filename = magic_number ->
      stored_errcode filename = 0 ->
      stored_nperiods filename <> 0 ->
      SwmmExtract__init__ filename g =
        fst (read_parameters g (nth 0 (closing_record filename) 0)
               (nth 1 (closing_record filename) 0)
               (nth 2 (closing_record filename) 0)
               (stored_nperiods filename)
               {| f_bytes := filename; f_pos := 4;
                  f_log := [io_read (Z.of_nat (length filename) - 24) 24;
                            io_read 0 4] |}))
  /\ ((length filename < 24)%nat -> SwmmExtract__init__ filename g = Raise OSError).
Proof.
  unfold rejected, SwmmExtract__init__.
  destruct (le_lt_dec 24 (length filename)) as [Hlen|Hlen].
  - rewrite init_checks by exact Hlen. cbv zeta.
    destruct (Z.eqb_spec (stored_magic1 filename) magic_number) as [E1|E1]; cbn [negb].
    2:{ split; [split|split].
        - intros _. auto.
        - intros _. eexists. split; reflexivity.
        - intros _ H. contradiction.
        - lia. }
    destruct (Z.eqb_spec (stored_magic2 filename) magic_number) as [E2|E2]; cbn [negb].
    2:{ split; [split|split].
        - intros _. auto.
        - intros _. eexists. split; reflexivity.
        - intros _ _ H. contradiction.
        - lia. }
    destruct (Z.eqb_spec (stored_errcode filename) 0) as [E3|E3]; cbn [negb].
    2:{ split; [split|split].
        - intros _. auto.
        - intros _. eexists. split; reflexivity.
        - intros _ _ _ H. contradiction.
        - lia. }
    destruct (Z.eqb_spec (stored_nperiods filename) 0) as [E4|E4].
    { split; [split|split].
      - intros _. auto.
      - intros _. eexists. split; reflexivity.
      - intros _ _ _ _ H. contradiction.
      - lia. }
    assert (Hlib : forall e, fst (read_parameters g (nth 0 (closing_record filename) 0)
                      (nth 1 (closing_record filename) 0)
                      (nth 2 (closing_record filename) 0)
                      (stored_nperiods filename)
                      {| f_bytes := filename; f_pos := 4;
                         f_log := [io_read (Z.of_nat (length filename) - 24) 24;
                                   io_read 0 4] |}) = Raise e -> library_error e).
    { intros e He. destruct (read_parameters _ _ _ _ _ _) as [r f'] eqn:E.
      simpl in He. subst r. eapply read_parameters_raises, E. }
    split; [split|split].
    + intros (e & He & Hf). apply Hlib in He.
      destruct He as [->|[->|[->|[->|[->|[->| ->]]]]]]; discriminate.
    + intros (_ & [H|[H|[H|H]]]); contradiction.
    + reflexivity.
    + lia.
  - assert (E : SwmmExtract__init__body g (open_rb filename)
                = (Raise OSError, open_rb filename)).
    { unfold SwmmExtract__init__body. cbv zeta. apply bind_Raise.
      unfold fp_seek, open_rb, f_size. cbn [f_bytes f_pos f_log].
      change (2 =? 2) with true. change (fits_int64 (-6 * 4)) with true.
      cbn [orb negb]. cbv iota zeta.
      destruct (Z.ltb_spec (Z.of_nat (length filename) + -6 * 4) 0); [reflexivity | lia]. }
    rewrite E. cbn [fst]. split; [split|split].
    + intros (e & [= <-] & Hf). discriminate.
    + intros (H & _). lia.
    + lia.
    + reflexivity.
Qed.

(** C7, as stated, fails for a negative period count: the file that stores
    -1 periods, with both magic numbers right and error code 0, is not
    rejected; the object is built with [swmm_nperiods = -1]. *)
Lemma negative_period_count_accepted :
  stored_nperiods negative_periods_out = -1 /\
  (exists obj, SwmmExtract__init__ negative_periods_out module_loaded = Ok obj
               /\ swmm_nperiods obj = -1) /\
  ~ (rejected negative_periods_out module_loaded <->
       stored_magic1 negative_periods_out <> magic_number \/
       stored_magic2 negative_periods_out <> magic_number \/
       stored_errcode negative_periods_out <> 0 \/
       ~ 0 < stored_nperiods negative_periods_out).
Proof.
  split; [reflexivity|].
  destruct (SwmmExtract__init__ negative_periods_out module_loaded) as [obj|e] eqn:E;
    [|vm_compute in E; discriminate].
  split.
  - exists obj. split; [reflexivity|]. vm_compute in E. injection E as <-. reflexivity.
  - intros [_ H]. destruct H as (e & He & _).
    + right. right. right. vm_compute. discriminate.
    + unfold rejected in *. rewrite E in He. discriminate.
Qed.

(** ** C9: what the queries leave unchanged *)

Lemma unchanged_refl s : unchanged s s.
Proof. split; auto. Qed.

Lemma unchanged_trans s1 s2 s3 : unchanged s1 s2 -> unchanged s2 s3 -> unchanged s1 s3.
Proof.
  intros [G1 V1] [G2 V2]. split; [congruence|].
  intros H. rewrite V2, V1; auto.
  assert (E : names (self s2) = names (self s1)).
  { unfold geometry_and_names in G1. congruence. }
  rewrite E. exact H.
Qed.

Lemma stable_ret {A} (a : A) : stable (ret a).
Proof. intros s. apply unchanged_refl. Qed.

Lemma stable_throw {A} e : stable (throw (A:=A) e).
Proof. intros s. apply unchanged_refl. Qed.

Lemma stable_lift {A} (r : result A) : stable (lift r).
Proof. intros s. apply unchanged_refl. Qed.

Lemma stable_gets {A} (f : state -> A) : stable (gets f).
Proof. intros s. apply unchanged_refl. Qed.

Lemma stable_attr {A} (f : SwmmExtract -> A) : stable (attr f).
Proof. intros s. apply unchanged_refl. Qed.

Lemma stable_bind {A B} (c : M state A) (k : A -> M state B) :
  stable c -> (forall a, stable (k a)) -> stable (bind c k).
Proof.
  intros Hc Hk s. unfold bind. specialize (Hc s).
  destruct (c s) as [[a|e] s1]; cbn [snd] in *; [|exact Hc].
  eapply unchanged_trans; [exact Hc | apply Hk].
Qed.

Lemma stable_map_M {A B} (f : A -> M state B) (l : list A) :
  (forall a, stable (f a)) -> stable (map_M f l).
Proof.
  intros Hf. induction l as [|x l IH]; cbn [map_M].
  - apply stable_ret.
  - apply stable_bind; [apply Hf | intros y].
    apply stable_bind; [apply IH | intros ys]. apply stable_ret.
Qed.

Lemma stable_set_itemtype t : stable (modify (set_itemtype t)).
Proof. intros s. split; reflexivity. Qed.

Lemma stable_self_fp {A} (c : M file_obj A) : stable (self_fp c).
Proof.
  intros s. unfold self_fp, zoom. destruct (c (fp (self s))) as [r f].
  split; reflexivity.
Qed.

Lemma assign_deref r g : assign r (deref r g) g = g.
Proof. destruct r, g; reflexivity. Qed.

Lemma stable_update_var_code typenumber : stable (update_var_code typenumber).
Proof.
  intros s. unfold update_var_code, bind, attr, gets, lift, modify, ret.
  cbn [fst snd].
  destruct (getitem (deref (varcode (self s)) (globals s)) typenumber) as [d|e] eqn:Ed;
    [|apply unchanged_refl].
  destruct (getitem (names (self s)) (PInt 3)) as [names3|e] eqn:En;
    [|apply unchanged_refl].
  destruct typenumber as [z| |]; try apply unchanged_refl.
  split; [reflexivity|]. cbn [snd set_globals self globals].
  intros H3. unfold getitem in En, Ed. rewrite H3 in En. injection En as <-.
  destruct (deref _ _ !! z) as [d0|] eqn:Ez; [|discriminate]. injection Ed as ->.
  replace (zip (range2 (Z.of_nat (size d)) (Z.of_nat (size d) + Z.of_nat (length (@nil string))))
               (@nil string))
    with (@nil (Z * string)) by (destruct (range2 _ _); reflexivity).
  cbn [foldl]. rewrite insert_id by exact Ez.
  apply assign_deref.
Qed.

Lemma stable_type_check itemtype : stable (type_check itemtype).
Proof.
  unfold type_check. destruct (decide _); [apply stable_ret|].
  apply stable_bind; [apply stable_attr | intros l].
  destruct (list_index _ _); [apply stable_ret | apply stable_throw].
Qed.

Lemma stable_name_check itemtype itemname : stable (name_check itemtype itemname).
Proof.
  unfold name_check.
  apply stable_bind; [apply stable_type_check | intros t].
  apply stable_bind; [apply stable_set_itemtype | intros _].
  apply stable_bind; [apply stable_attr | intros nm].
  destruct (getitem nm t) as [l|e]; [|apply stable_throw].
  destruct (list_index itemname l); [apply stable_ret | apply stable_throw].
Qed.

(** Structural proof of stability. *)
Ltac stable_tac :=
  repeat first
    [ apply stable_ret
    | apply stable_throw
    | apply stable_lift
    | apply stable_gets
    | apply stable_attr
    | apply stable_set_itemtype
    | apply stable_self_fp
    | apply stable_update_var_code
    | apply stable_type_check
    | apply stable_name_check
    | apply stable_map_M; intros ?
    | apply stable_bind; [|intros ?]
    | match goal with
      | |- stable (match ?x with _ => _ end) => destruct x
      | |- stable (let (_, _) := ?p in _) => destruct p
      end
    | progress cbv zeta ].

Lemma stable_get_swmm_results itemtype name variableindex period :
  stable (get_swmm_results itemtype name variableindex period).
Proof. unfold get_swmm_results. stable_tac. Qed.

Lemma stable_catalog_body itemtype : stable (catalog_body itemtype).
Proof. unfold catalog_body. stable_tac. Qed.

Lemma stable_listdetail_body itemtype name : stable (listdetail_body itemtype name).
Proof. unfold listdetail_body. stable_tac. Qed.

Lemma stable_listvariables_body : stable listvariables_body.
Proof. unfold listvariables_body. stable_tac. Qed.

Lemma stable_extract_body labels : stable (extract_body labels).
Proof.
  unfold extract_body, extract_label, extract_period. stable_tac.
  all: apply stable_get_swmm_results.
Qed.

Lemma stable_extract_arr_body labels : stable (extract_arr_body labels).
Proof.
  unfold extract_arr_body, extract_arr_label. stable_tac.
  all: apply stable_get_swmm_results.
Qed.

Lemma stable_fast_extract_body granularity labels :
  stable (fast_extract_body granularity labels).
Proof. unfold fast_extract_body, fast_extract_period. stable_tac. Qed.

Lemma stable_after_query q s : unchanged s (after_query q s).
Proof.
  destruct q; cbn [after_query].
  - apply stable_catalog_body.
  - apply stable_listdetail_body.
  - apply stable_listvariables_body.
  - apply stable_extract_body.
  - apply stable_extract_arr_body.
  - apply stable_fast_extract_body.
Qed.

(** C9, as the code has it.  Whatever sequence of queries (the bodies of
    [catalog], [listdetail], [listvariables], [extract], [extract_arr] and
    [fast_extract])
    runs on an open object, each returning or raising, the geometry, the
    name tables, the variable lists, the counts and the offsets of the
    object are afterwards what they were; only the file position and the
    type last resolved change.  The variable-code table, which the object
    shares with the module, is also what it was if the file has no
    pollutant; otherwise [extract] and [listvariables] extend it through
    [update_var_code]. *)
Theorem queries_leave_geometry_and_names (qs : list query) (s : state) :
  geometry_and_names (self (after_queries qs s)) = geometry_and_names (self s)
  /\ (names (self s) !! 3 = Some [] ->
      varcode_table (after_queries qs s) = varcode_table s).
Proof.
  assert (H : unchanged s (after_queries qs s)).
  { revert s. induction qs as [|q qs IH]; intros s; cbn [after_queries foldl].
    - apply unchanged_refl.
    - eapply unchanged_trans; [apply stable_after_query | apply IH]. }
  destruct H as [G V]. split; [exact G|].
  intros H3. unfold varcode_table. rewrite (V H3).
  unfold geometry_and_names in G. f_equal. congruence.
Qed.

(** C9, as stated, fails for the variable-code table: on the file with one
    pollutant, [extract] of a node series adds the pollutant name to the
    node variables (code 6) of the table that the object holds. *)
Lemma extract_extends_varcode :
  exists obj, SwmmExtract__init__ polluted_out module_loaded = Ok obj /\
    let s := session obj module_loaded in
    let s' := after_queries [Q_extract [Label "node" "N1" 0]] s in
    varcode_table s !! 1 ≫= (.!! 6) = None /\
    varcode_table s' !! 1 ≫= (.!! 6) = Some "TSS"%string /\
    varcode_table s' <> varcode_table s.
Proof.
  destruct (SwmmExtract__init__ polluted_out module_loaded) as [obj|e] eqn:E;
    [|vm_compute in E; discriminate].
  exists obj. split; [reflexivity|].
  vm_compute in E. injection E as <-.
  split; [vm_compute; reflexivity|]. split; [vm_compute; reflexivity|].
  intros H. apply (f_equal (fun t : codetable => t !! 1 ≫= (.!! 6))) in H.
  vm_compute in H. discriminate.
Qed.

(** ** C4: the mask of fast_extract *)

Lemma mask_set_length a idx a' : mask_set a idx = Ok a' -> length a' = length a.
Proof.
  revert a. induction idx as [|i idx IH]; intros a H; cbn [mask_set] in H.
  - injection H as <-. reflexivity.
  - destruct (_ || _); [discriminate|].
    apply IH in H. rewrite H. apply length_insert.
Qed.

Lemma mask_set_range_length a idx r a' :
  mask_set_range a idx r = Ok a' -> length a' = length a.
Proof.
  revert a. induction r as [|i r IH]; intros a H; cbn [mask_set_range] in H.
  - injection H as <-. reflexivity.
  - destruct (mask_set a _) as [a1|e] eqn:E; [|discriminate].
    apply IH in H. apply mask_set_length in E. congruence.
Qed.

Lemma bool_mask_length obj offs mask :
  bool_mask obj offs = Ok mask ->
  Z.of_nat (length mask) = bytesperperiod obj - 2.
Proof.
  unfold bool_mask, np_zeros. intros H.
  destruct (Z.ltb_spec (bytesperperiod obj - 2) 0); [discriminate|].
  destruct (mask_set _ offs); [|discriminate].
  apply mask_set_range_length in H. rewrite H, length_replicate. lia.
Qed.




(** C4 at the scenario file: for the request (node "N2", variable 2),
    whose value is at byte 28 of the values of a period, the mask of
    [fast_extract] has [bytesperperiod - 2 = 50] entries, not
    [bytesperperiod - 2*RECORDSIZE = 44]: six more than the values of a
    period, which are the first six bytes of the next date.  The entries 28
    to 31 are set and no other. *)
Theorem bool_mask_is_six_bytes_longer :
  exists obj mask,
    SwmmExtract__init__ scenario_out module_loaded = Ok obj /\
    bool_mask obj (all_offsets obj [1] [1] [2]) = Ok mask /\
    Z.of_nat (length mask) = bytesperperiod obj - 2 /\
    Z.of_nat (length mask) = 50 /\
    bytesperperiod obj - 2 * RECORDSIZE obj = 44 /\
    mask = replicate 28 false ++ replicate 4 true ++ replicate 18 false.
Proof.
  destruct (SwmmExtract__init__ scenario_out module_loaded) as [obj|e] eqn:E;
    [|vm_compute in E; discriminate].
  destruct (bool_mask obj (all_offsets obj [1] [1] [2])) as [mask|e] eqn:Em;
    [|vm_compute in E; injection E as <-; vm_compute in Em; discriminate].
  exists obj, mask. split; [reflexivity|]. split; [exact Em|].
  split; [exact (bool_mask_length obj _ mask Em)|].
  vm_compute in E. injection E as <-. vm_compute in Em. injection Em as <-.
  split; [reflexivity|]. split; reflexivity.
Qed.

(** ** C5: the columns of fast_extract *)

(** C5 at the scenario file: a request given twice does not collapse into
    one column.  The mask selects its four bytes once, so each period
    yields one value, while there is one heading per request: the table
    cannot be built and [fast_extract] raises the [ValueError] of
    [pandas.DataFrame].  The same request given once yields one column. *)
Theorem duplicate_request_raises :
  fst (fast_extract 4096 scenario_out
         [Label "node" "N2" 2; Label "node" "N2" 2] module_loaded)
    = Raise (ValueError Shape_of_passed_values)
  /\ exists tbl,
       fst (fast_extract 4096 scenario_out [Label "node" "N2" 2] module_loaded) = Ok tbl
       /\ t_columns tbl = ["node_N2_Volume_stored_ponded"%string]
       /\ t_data tbl = [[float_of_int 108]; [float_of_int 208]; [float_of_int 308]].
Proof.
  split; [vm_compute; reflexivity|].
  eexists. split; [vm_compute; reflexivity|]. split; reflexivity.
Qed.

(** The values of a period are gathered in the order of their bytes, while
    the headings, after the last [+] of Series has aligned them on the
    index, follow the order of the requests: two requests given out of the
    canonical order get each other's column. *)
Lemma headings_follow_requests :
  exists t1 t2,
    fst (fast_extract 4096 scenario_out
           [Label "node" "N1" 0; Label "node" "N2" 0] module_loaded) = Ok t1 /\
    fst (fast_extract 4096 scenario_out
           [Label "node" "N2" 0; Label "node" "N1" 0] module_loaded) = Ok t2 /\
    t_columns t1 = ["node_N1_Depth_above_invert"; "node_N2_Depth_above_invert"]%string /\
    t_columns t2 = ["node_N2_Depth_above_invert"; "node_N1_Depth_above_invert"]%string /\
    t_data t1 = t_data t2 /\
    t_data t1 = [float_of_int <$> [103; 106]; float_of_int <$> [203; 206];
                 float_of_int <$> [303; 306]].
Proof.
  do 2 eexists. split; [vm_compute; reflexivity|]. split; [vm_compute; reflexivity|].
  repeat split.
Qed.

(** ** C1: the two extraction paths *)

(** C1 at the file with two system variables.  For the request (system,
    "Rainfall", variable 1), [extract] returns the series 116, 216, 316 of
    the second system variable, and [fast_extract] raises an [IndexError]
    while it builds its mask, whatever the allocation granularity: it adds
    the item term [itemindex * nsystemvars * RECORDSIZE] that
    [get_swmm_results] leaves out for the system.  For (system, "Rainfall",
    variable 0) both return, [extract] with the first system variable 115,
    215, 315, and [fast_extract] with the four bytes that follow the
    values of each period. *)
Theorem system_series_differ :
  (exists s,
     fst (extract polluted_out [Label "system" "Rainfall" 1] module_loaded) = Ok [s]
     /\ s_values s = float_of_int <$> [116; 216; 316])
  /\ (forall granularity,
        fst (fast_extract granularity polluted_out
               [Label "system" "Rainfall" 1] module_loaded) = Raise IndexError)
  /\ (exists s tbl,
        fst (extract polluted_out [Label "system" "Rainfall" 0] module_loaded) = Ok [s]
        /\ fst (fast_extract 4096 polluted_out
                  [Label "system" "Rainfall" 0] module_loaded) = Ok tbl
        /\ s_values s = float_of_int <$> [115; 215; 315]
        /\ t_data tbl = [[S754_zero false]; [S754_zero false];
                         [float_of_bits 8 23 28]]
        /\ concat (t_data tbl) <> s_values s).
Proof.
  split; [|split].
  - eexists. split; [vm_compute; reflexivity|]. reflexivity.
  - intros granularity. vm_compute. reflexivity.
  - do 2 eexists. split; [vm_compute; reflexivity|]. split; [vm_compute; reflexivity|].
    split; [reflexivity|]. split; [reflexivity|]. vm_compute. discriminate.
Qed.

(** * Further properties of the code

    The checks of types and names, the commands that list the content of
    a file, the object that [SwmmExtract.__init__] builds, the errors of a
    seek in the fetch, and the agreement of the two ways of reading a
    value. *)

(** ** [list.index] *)




(** ** [type_check] and [name_check] *)






(** ** [get_dates] *)



(** ** [catalog] *)



(** ** The object that [SwmmExtract.__init__] builds *)








(** ** [listdetail] *)



(** ** [extract_arr] *)




(** ** The errors of a seek in the fetch *)



(** ** The mask of [fast_extract] *)



(** ** One period of [fast_extract] and the fetch *)












